(** * RSI screener: the indicator computation and the per-symbol driver

    A shallow embedding of [src/app.py]: [calculate_rsi] (a pandas pipeline
    [diff] / [where] / [rolling(window).mean()] followed by the RS and RSI
    formulas) and [get_stock_data] (the loop that fetches one price history
    per symbol, derives the daily change and the latest RSI, and appends a
    record, with a blanket [except Exception] around each iteration).

    Numbers.  The program computes on IEEE doubles.  Two readings of it
    are given.

    The exact reading ([F], [Series], [calculate_rsi], [get_stock_data])
    keeps the three special values the program can produce (NaN, +inf,
    -inf) and replaces the finite doubles by exact rationals; every rolling
    window is summed afresh.  Dividing a non-zero number by zero gives an
    infinity and 0/0 gives NaN, as numpy does (with a warning, never an
    exception).  Rounding, overflow, underflow, the sign of zero and the
    running sum of pandas' rolling mean are not in it.

    The double reading ([D]) is [calculate_rsi] on binary64 numbers with
    the rolling mean as pandas computes it.  It is the one evaluated where
    those effects decide the outcome. *)

From Stdlib Require Import QArith Qround Lia Lqa.
From Stdlib Require Import Floats Uint63.
From stdpp Require Import base list strings sorting.

(** ** Floating values *)

Inductive float64 : Type :=
  | NaN
  | PInf
  | NInf
  | Fin (q : Q).

Module F.

Definition isnan (x : float64) : bool :=
  match x with NaN => true | _ => false end.

Definition is_fin (x : float64) : Prop :=
  match x with Fin _ => True | _ => False end.

(** Same value: the rationals up to [Qeq], the special values by name. *)
Definition same (x y : float64) : Prop :=
  match x, y with
  | NaN, NaN | PInf, PInf | NInf, NInf => True
  | Fin a, Fin b => (a == b)%Q
  | _, _ => False
  end.

Definition opp (x : float64) : float64 :=
  match x with
  | NaN => NaN
  | PInf => NInf
  | NInf => PInf
  | Fin q => Fin (- q)
  end.

Definition add (x y : float64) : float64 :=
  match x, y with
  | NaN, _ | _, NaN => NaN
  | PInf, NInf | NInf, PInf => NaN
  | PInf, _ | _, PInf => PInf
  | NInf, _ | _, NInf => NInf
  | Fin a, Fin b => Fin (a + b)
  end.

Definition sub (x y : float64) : float64 := add x (opp y).

(** The sign of a value as a comparison with zero ([Eq] for zero and, by
    convention, for NaN, which the callers exclude first). *)
Definition sign (x : float64) : comparison :=
  match x with
  | NaN => Eq
  | PInf => Gt
  | NInf => Lt
  | Fin q => (q ?= 0)%Q
  end.

Definition sign_mul (a b : comparison) : comparison :=
  match a, b with
  | Eq, _ | _, Eq => Eq
  | Gt, Gt | Lt, Lt => Gt
  | _, _ => Lt
  end.

(** The infinity of a given sign; NaN for the sign of zero (0 * inf, 0 / 0). *)
Definition inf_of (c : comparison) : float64 :=
  match c with Gt => PInf | Lt => NInf | Eq => NaN end.

Definition mul (x y : float64) : float64 :=
  match x, y with
  | NaN, _ | _, NaN => NaN
  | Fin a, Fin b => Fin (a * b)
  | _, _ => inf_of (sign_mul (sign x) (sign y))
  end.

Definition div (x y : float64) : float64 :=
  match x, y with
  | NaN, _ | _, NaN => NaN
  | Fin a, Fin b =>
      if Qeq_bool b 0 then inf_of (a ?= 0)%Q else Fin (a / b)
  | Fin _, _ => Fin 0
  | _, Fin b =>
      inf_of (sign_mul (sign x) (match (b ?= 0)%Q with Lt => Lt | _ => Gt end))
  | _, _ => NaN
  end.

(** [x < y] and [x > y] as numpy compares: false as soon as one side is NaN. *)
Definition ltb (x y : float64) : bool :=
  match x, y with
  | NaN, _ | _, NaN => false
  | _, NInf => false
  | NInf, _ => true
  | PInf, _ => false
  | Fin _, PInf => true
  | Fin a, Fin b => match (a ?= b)%Q with Lt => true | _ => false end
  end.

Definition gtb (x y : float64) : bool := ltb y x.

(** Nearest integer, ties to even ([numpy.rint]). *)
Definition rint (q : Q) : Z :=
  let f := Qfloor q in
  match (q - inject_Z f ?= 1 # 2)%Q with
  | Lt => f
  | Gt => (f + 1)%Z
  | Eq => if Z.even f then f else (f + 1)%Z
  end.

(** [round(x, 2)] on a numpy double: scale by 100, [rint], scale back;
    NaN and the infinities pass through.  Exact reading: the scaling does
    not round or overflow. *)
Definition round2 (x : float64) : float64 :=
  match x with
  | Fin q => Fin (inject_Z (rint (q * 100)) / 100)
  | _ => x
  end.

Definition of_nat (n : nat) : float64 := Fin (inject_Z (Z.of_nat n)).

(** Predicates on values: a finite number that is non-negative, zero,
    positive, or within given bounds. *)
Definition nonneg (x : float64) : Prop :=
  match x with Fin q => (0 <= q)%Q | _ => False end.

Definition zero (x : float64) : Prop :=
  match x with Fin q => (q == 0)%Q | _ => False end.

Definition pos (x : float64) : Prop :=
  match x with Fin q => (0 < q)%Q | _ => False end.

Definition in_range (lo hi : Q) (x : float64) : Prop :=
  match x with Fin q => (lo <= q /\ q <= hi)%Q | _ => False end.

(** Undefined, or a non-negative number: what a rolling mean of
    non-negative numbers is. *)
Definition nan_or_nonneg (x : float64) : Prop := x = NaN \/ nonneg x.

Definition sum (l : list float64) : float64 := foldr add (Fin 0) l.

End F.

(** ** Series operations (pandas) *)

Module Series.

(** [s.diff()]: NaN at position 0, then [s[i] - s[i-1]]. *)
Definition diff (s : list float64) : list float64 :=
  match s with
  | [] => []
  | _ :: t => NaN :: zip_with F.sub t s
  end.

(** [s.where(cond, other)]: keeps [s[i]] where [cond[i]] holds and puts
    [other] elsewhere. *)
Definition where_ (s : list float64) (cond : list bool) (other : float64)
  : list float64 :=
  zip_with (fun x (c : bool) => if c then x else other) s cond.

(** [s > 0] and [s < 0], elementwise. *)
Definition gt0 (s : list float64) : list bool :=
  (fun x => F.gtb x (Fin 0)) <$> s.

Definition lt0 (s : list float64) : list bool :=
  (fun x => F.ltb x (Fin 0)) <$> s.

Definition neg (s : list float64) : list float64 := F.opp <$> s.

(** The window that ends at position [i]: the last [w] entries up to and
    including [i], or all of them while fewer than [w] have been seen. *)
Definition window_at (s : list float64) (w i : nat) : list float64 :=
  drop (S i - w) (take (S i) s).

Definition notna (l : list float64) : list float64 :=
  filter (fun x => F.isnan x = false) l.

(** The mean over the observations of one window: NaN unless there are at
    least [minp] of them, and at least one. *)
Definition calc_mean (minp : nat) (obs : list float64) : float64 :=
  let nobs := length obs in
  if (minp <=? nobs)%nat && (0 <? nobs)%nat
  then F.div (F.sum obs) (F.of_nat nobs)
  else NaN.

(** [s.rolling(window=w).mean()]; [min_periods] defaults to [w].  Exact
    reading: the mean of the window's own entries ([D.rolling_mean] has the
    running sum on doubles). *)
Definition rolling_mean (s : list float64) (w : nat) : list float64 :=
  (fun i => calc_mean w (notna (window_at s w i))) <$> seq 0 (length s).

(** [a / b], elementwise on two aligned series. *)
Definition div (a b : list float64) : list float64 := zip_with F.div a b.

End Series.

(** ** [calculate_rsi] *)

Section Rsi.

(** The price series: finite closing prices. *)
Variable data : list Q.
Variable window : nat.

Definition delta : list float64 := Series.diff (Fin <$> data).

Definition gain : list float64 :=
  Series.where_ delta (Series.gt0 delta) (Fin 0).

Definition loss : list float64 :=
  Series.neg (Series.where_ delta (Series.lt0 delta) (Fin 0)).

Definition avg_gain : list float64 := Series.rolling_mean gain window.
Definition avg_loss : list float64 := Series.rolling_mean loss window.

Definition rs : list float64 := Series.div avg_gain avg_loss.

Definition rsi_of_rs (r : float64) : float64 :=
  F.sub (Fin 100) (F.div (Fin 100) (F.add (Fin 1) r)).

Definition calculate_rsi : list float64 := rsi_of_rs <$> rs.

End Rsi.

(** ** [calculate_rsi] on doubles

    The same pipeline on IEEE binary64 numbers (Rocq's primitive floats),
    with the rolling mean computed the way pandas computes it: one running
    sum per series, updated with compensated additions as values enter and
    leave the window.  This is the reading to evaluate where rounding,
    overflow, underflow or the running sum decide the outcome; the exact
    reading above is the one to reason with where they do not. *)

Module D.

(** The accumulators of pandas' rolling mean. *)
Record mean_state : Type := {
  nobs : nat;
  sum_x : float;
  neg_ct : nat;
  compensation_add : float;
  compensation_remove : float;
  num_consecutive_same_value : nat;
  prev_value : float;
}.

Definition of_count (n : nat) : float :=
  PrimFloat.of_uint63 (Uint63.of_Z (Z.of_nat n)).

(** A value enters the window (NaN is skipped). *)
Definition add_mean (val : float) (st : mean_state) : mean_state :=
  if PrimFloat.eqb val val then
    let y := PrimFloat.sub val (compensation_add st) in
    let t := PrimFloat.add (sum_x st) y in
    {| nobs := S (nobs st);
       sum_x := t;
       neg_ct := if PrimFloat.get_sign val then S (neg_ct st) else neg_ct st;
       compensation_add := PrimFloat.sub (PrimFloat.sub t (sum_x st)) y;
       compensation_remove := compensation_remove st;
       num_consecutive_same_value :=
         if PrimFloat.eqb val (prev_value st)
         then S (num_consecutive_same_value st) else 1;
       prev_value := val |}
  else st.

(** A value leaves the window. *)
Definition remove_mean (val : float) (st : mean_state) : mean_state :=
  if PrimFloat.eqb val val then
    let y := PrimFloat.sub (PrimFloat.opp val) (compensation_remove st) in
    let t := PrimFloat.add (sum_x st) y in
    {| nobs := pred (nobs st);
       sum_x := t;
       neg_ct := if PrimFloat.get_sign val then pred (neg_ct st) else neg_ct st;
       compensation_add := compensation_add st;
       compensation_remove := PrimFloat.sub (PrimFloat.sub t (sum_x st)) y;
       num_consecutive_same_value := num_consecutive_same_value st;
       prev_value := prev_value st |}
  else st.

(** The mean read off the accumulators: NaN with fewer than [minp]
    observations; the repeated value itself when the whole window holds one
    value; 0 when the sign of the quotient contradicts the signs seen. *)
Definition calc_mean (minp : nat) (st : mean_state) : float :=
  if (minp <=? nobs st)%nat && (0 <? nobs st)%nat then
    let result := PrimFloat.div (sum_x st) (of_count (nobs st)) in
    if (nobs st <=? num_consecutive_same_value st)%nat then prev_value st
    else if (neg_ct st =? 0)%nat && PrimFloat.ltb result 0%float then 0%float
    else if (neg_ct st =? nobs st)%nat && PrimFloat.ltb 0%float result
         then 0%float
    else result
  else PrimFloat.nan.

(** [values[s:e]]. *)
Definition slice (values : list float) (s e : nat) : list float :=
  drop s (take e values).

(** A window summed from scratch: the first one, and every window that
    shares nothing with the one before.  [prev_value] starts as the first
    value of the window (NaN here when there is none, which only a window
    of 0 reaches; the mean is NaN then whatever it is). *)
Definition setup (values : list float) (s e : nat) : mean_state :=
  foldl (fun st val => add_mean val st)
    {| nobs := 0; sum_x := 0%float; neg_ct := 0;
       compensation_add := 0%float; compensation_remove := 0%float;
       num_consecutive_same_value := 0;
       prev_value := default PrimFloat.nan (values !! s) |}
    (slice values s e).

(** The window that ends at [i] covers [values[i+1-w : i+1]]; it is
    obtained from the previous one by removing what left and adding what
    entered. *)
Definition roll_step (values : list float) (w : nat)
    (acc : mean_state * list float) (i : nat) : mean_state * list float :=
  let s := (S i - w)%nat in
  let e := S i in
  let st :=
    match i with
    | O => setup values s e
    | S j =>
        if (S j <=? s)%nat then setup values s e
        else
          let removed :=
            foldl (fun st val => remove_mean val st) acc.1
              (slice values (S j - w) s) in
          foldl (fun st val => add_mean val st) removed
            (slice values (S j) e)
    end in
  (st, acc.2 ++ [calc_mean w st]).

(** [s.rolling(window=w).mean()]. *)
Definition rolling_mean (values : list float) (w : nat) : list float :=
  (foldl (roll_step values w) (setup values 0 0, [])
     (seq 0 (length values))).2.

(** [s.diff()]. *)
Definition diff (s : list float) : list float :=
  match s with
  | [] => []
  | _ :: t => PrimFloat.nan :: zip_with PrimFloat.sub t s
  end.

Definition delta (data : list float) : list float := diff data.

(** [delta.where(delta > 0, 0)]. *)
Definition gain (data : list float) : list float :=
  (fun d => if PrimFloat.ltb 0%float d then d else 0%float) <$> delta data.

(** [-delta.where(delta < 0, 0)]. *)
Definition loss (data : list float) : list float :=
  (fun d => PrimFloat.opp (if PrimFloat.ltb d 0%float then d else 0%float))
    <$> delta data.

Definition avg_gain (data : list float) (window : nat) : list float :=
  rolling_mean (gain data) window.

Definition avg_loss (data : list float) (window : nat) : list float :=
  rolling_mean (loss data) window.

Definition rs (data : list float) (window : nat) : list float :=
  zip_with PrimFloat.div (avg_gain data window) (avg_loss data window).

Definition calculate_rsi (data : list float) (window : nat) : list float :=
  (fun r => PrimFloat.sub 100%float
              (PrimFloat.div 100%float (PrimFloat.add 1%float r)))
    <$> rs data window.

End D.

(** ** [get_stock_data] *)

(** The exceptions one iteration of the loop can meet: an out-of-bounds
    positional index, or whatever the price history provider raises. *)
Inductive exn : Type :=
  | IndexError
  | ProviderError (msg : string).

Inductive result (A : Type) : Type :=
  | Ok (a : A)
  | Raise (e : exn).
Arguments Ok {A} a.
Arguments Raise {A} e.

#[global] Instance result_ret : MRet result := fun A a => Ok a.
#[global] Instance result_bind : MBind result := fun A B f m =>
  match m with
  | Ok a => f a
  | Raise e => Raise e
  end.

(** One row of the result: the dictionary appended to [stock_data]. *)
Record stock_record : Type := {
  Symbol : string;
  CMP : float64;
  Daily_Change : float64;
  RSI : float64;
}.

(** [s.iloc[k]]: positional access, negative positions counted from the end,
    [IndexError] out of bounds. *)
Definition iloc {A : Type} (s : list A) (k : Z) : result A :=
  let n := Z.of_nat (length s) in
  let j := if (k <? 0)%Z then (n + k)%Z else k in
  if (j <? 0)%Z then Raise IndexError
  else match s !! Z.to_nat j with
       | Some a => Ok a
       | None => Raise IndexError
       end.

Section Driver.

(** [yf.Ticker(t).history(period="1mo")['Close']]: the closing prices of
    ticker [t], oldest first, or an exception. *)
Variable history : string -> result (list Q).

(** The body of the [try]: [Ok None] when the history is empty (nothing is
    appended), [Ok (Some r)] when [r] is appended. *)
Definition fetch_record (symbol : string) : result (option stock_record) :=
  hist ← history (symbol +:+ ".NS");
  match hist with
  | [] => mret None
  | _ =>
      let close := Fin <$> hist in
      cmp ← iloc close (-1);
      prev_close ← iloc close (-2);
      let daily_change :=
        F.mul (F.div (F.sub cmp prev_close) prev_close) (Fin 100) in
      rsi ← iloc (calculate_rsi hist 14) (-1);
      mret (Some {| Symbol := symbol;
                    CMP := F.round2 cmp;
                    Daily_Change := F.round2 daily_change;
                    RSI := F.round2 rsi |})
  end.

(** The state of the loop: [stock_data] and the lines printed by the
    [except] branch (the symbol and the exception of each). *)
Definition state : Type := list stock_record * list (string * exn).

Definition step (st : state) (symbol : string) : state :=
  match fetch_record symbol with
  | Ok (Some r) => (st.1 ++ [r], st.2)
  | Ok None => st
  | Raise e => (st.1, st.2 ++ [(symbol, e)])
  end.

Definition run (symbols : list string) : state :=
  foldl step ([], []) symbols.

Definition get_stock_data (symbols : list string) : list stock_record :=
  (run symbols).1.

Definition printed_errors (symbols : list string) : list (string * exn) :=
  (run symbols).2.

(** What one symbol contributes to [stock_data] and to the printed lines. *)
Definition records_of (symbol : string) : list stock_record :=
  match fetch_record symbol with
  | Ok (Some r) => [r]
  | _ => []
  end.

Definition errors_of (symbol : string) : list (string * exn) :=
  match fetch_record symbol with
  | Raise e => [(symbol, e)]
  | _ => []
  end.

End Driver.

(** ** [get_nifty50_stocks] *)

(** The list returned when the download fails. *)
Definition fallback_symbols : list string :=
  [ "RELIANCE"; "TCS"; "HDFCBANK"; "ICICIBANK"; "HINDUNILVR";
    "INFY"; "HDFC"; "ITC"; "KOTAKBANK"; "LT"; "AXISBANK";
    "SBIN"; "BAJFINANCE"; "BHARTIARTL"; "ASIANPAINT"; "MARUTI";
    "HCLTECH"; "TITAN"; "TATAMOTORS"; "SUNPHARMA"; "ULTRACEMCO";
    "BAJAJFINSV"; "WIPRO"; "NESTLEIND"; "NTPC"; "POWERGRID";
    "ONGC"; "TECHM"; "ADANIPORTS"; "GRASIM"; "JSWSTEEL";
    "HINDALCO"; "TATASTEEL"; "M&M"; "INDUSINDBK"; "DRREDDY";
    "BPCL"; "CIPLA"; "EICHERMOT"; "COALINDIA"; "BRITANNIA";
    "ADANIENT"; "HDFCLIFE"; "SBILIFE"; "UPL"; "HEROMOTOCO";
    "DIVISLAB"; "APOLLOHOSP"; "BAJAJ-AUTO"; "TATACONSUM" ].

(** [read_symbols] is what the body of the [try] evaluates to: the
    [Symbol] column of the downloaded list, or the exception raised on the
    way.  The result is the returned list and the exception of the line the
    [except] branch prints, if any. *)
Definition get_nifty50_stocks (read_symbols : result (list string))
  : list string * option exn :=
  match read_symbols with
  | Ok symbols => (symbols, None)
  | Raise e => (fallback_symbols, Some e)
  end.

(** ** [main] *)

(** What [main] prints: lines of text, the two kinds of error lines, and
    tables (their layout is left to [tabulate]). *)
Inductive output : Type :=
  | Line (text : string)
  | ListError (e : exn)
  | DataError (symbol : string) (e : exn)
  | Table (rows : list stock_record).

(** The order of [sort_values]: ascending, undefined values last. *)
Definition key_le (x y : float64) : bool :=
  match x, y with
  | _, NaN => true
  | NaN, _ => false
  | NInf, _ => true
  | _, NInf => false
  | _, PInf => true
  | PInf, _ => false
  | Fin a, Fin b => Qle_bool a b
  end.

Definition rsi_le (r1 r2 : stock_record) : Prop :=
  key_le (RSI r1) (RSI r2) = true.

#[global] Instance rsi_le_dec : RelDecision rsi_le :=
  fun r1 r2 => decide (key_le (RSI r1) (RSI r2) = true).

(** [df.sort_values(by='RSI')].  The order of rows with equal RSI is the
    sorting algorithm's choice; nothing below depends on it. *)
Definition sort_values (df : list stock_record) : list stock_record :=
  merge_sort rsi_le df.

(** [df[df['RSI'] > 70]] and [df[df['RSI'] < 30]]. *)
Definition overbought (df : list stock_record) : list stock_record :=
  filter (fun r => F.gtb (RSI r) (Fin 70) = true) df.

Definition oversold (df : list stock_record) : list stock_record :=
  filter (fun r => F.ltb (RSI r) (Fin 30) = true) df.

(** The part of [main] after the data is fetched. *)
Definition report (df : list stock_record) : list output :=
  match df with
  | [] => [Line "Failed to fetch stock data."]
  | _ =>
      [Line ""; Line "Nifty 50 Stocks Data:"; Table (sort_values df);
       Line ""; Line "Overbought Stocks (RSI > 70):"]
      ++ match overbought df with
         | [] => [Line "No stocks are currently overbought."]
         | rows => [Table rows]
         end
      ++ [Line ""; Line "Oversold Stocks (RSI < 30):"]
      ++ match oversold df with
         | [] => [Line "No stocks are currently oversold."]
         | rows => [Table rows]
         end
  end.

Definition main (read_symbols : result (list string))
    (history : string -> result (list Q)) : list output :=
  let '(symbols, failure) := get_nifty50_stocks read_symbols in
  [Line "Fetching Nifty 50 Stocks data..."]
  ++ match failure with Some e => [ListError e] | None => [] end
  ++ match symbols with
     | [] => [Line "Failed to fetch Nifty 50 stocks list."]
     | _ =>
         let st := run history symbols in
         (uncurry DataError <$> st.2) ++ report st.1
     end.

(** ** Sample inputs *)

Definition prices_example : list Q := [10; 12; 11; 13; 14]%Q.

(** Fifteen closes whose second-to-last one is 0. *)
Definition prices_zero_prev : list Q :=
  [10; 11; 12; 11; 12; 13; 12; 13; 14; 13; 14; 15; 14; 0; 5]%Q.

(** Fifteen ordinary closes. *)
Definition prices_plain : list Q :=
  [10; 11; 12; 11; 12; 13; 12; 13; 14; 13; 14; 15; 14; 16; 20]%Q.

(** A provider with one ticker of each kind. *)
Definition sample_history (ticker : string) : result (list Q) :=
  if String.eqb ticker "ONE.NS" then Ok [5%Q]
  else if String.eqb ticker "ZERO.NS" then Ok prices_zero_prev
  else if String.eqb ticker "PLAIN.NS" then Ok prices_plain
  else if String.eqb ticker "EMPTY.NS" then Ok []
  else Raise (ProviderError "no data").

(** A gain of 1e17 followed by a loss of almost as much (to 2^53). *)
Definition prices_spike : list float :=
  [8; 0; 1e17; 9007199254740992; 9; 3; 9; 6]%float.

(** Twenty-three closes, about a month of trading days, with one spike. *)
Definition prices_month_spike : list float :=
  [1; 10; 10; 6; 2; 1e17; 6; 2; 4; 1; 3; 7; 7; 8; 7; 6; 8; 12; 9; 11; 12;
   10; 12]%float.


(** The prices of [prices_example], as doubles. *)
Definition prices_example_f64 : list float := [10; 12; 11; 13; 14]%float.

(** A provider that has the same five closes for every ticker. *)
Definition short_history (ticker : string) : result (list Q) :=
  Ok prices_example.

(** A value that is not negative: undefined, +inf, or a number >= 0. *)
Definition not_negative (x : float64) : Prop :=
  match x with
  | NaN | PInf => True
  | NInf => False
  | Fin q => (0 <= q)%Q
  end.

(** What [gain] and [loss] hold at a position where [delta] holds [d]. *)
Definition gain_of (d : float64) : float64 :=
  if F.gtb d (Fin 0) then d else Fin 0.

Definition loss_of (d : float64) : float64 :=
  F.opp (if F.ltb d (Fin 0) then d else Fin 0).


Definition flat (data : list Q) : Prop :=
  forall i a b, data !! i = Some a -> data !! S i = Some b -> (a == b)%Q.

Definition strictly_decreasing (data : list Q) : Prop :=
  forall i a b, data !! i = Some a -> data !! S i = Some b -> (b < a)%Q.

(** * Properties *)

(** ** Arithmetic on values *)

Module FFacts.

(** Unfolds the operations on values, leaving rational arithmetic folded. *)
Ltac fsimpl :=
  cbn [F.nonneg F.zero F.pos F.in_range F.is_fin F.isnan F.same
       F.add F.sub F.opp F.div F.mul F.of_nat F.sum F.inf_of foldr] in *.

Lemma Qeq_bool_false (a : Q) : ~ (a == 0)%Q -> Qeq_bool a 0 = false.
Proof.
  intros Ha. destruct (Qeq_bool a 0) eqn:E; [|reflexivity].
  apply Qeq_bool_eq in E. contradiction.
Qed.

Lemma Qeq_bool_true (a : Q) : (a == 0)%Q -> Qeq_bool a 0 = true.
Proof. intros Ha. apply Qeq_bool_iff, Ha. Qed.

Lemma Qcompare_Lt (a b : Q) : (a < b)%Q -> (a ?= b)%Q = Lt.
Proof. intros H. apply Qlt_alt. exact H. Qed.

Lemma Qcompare_not_Lt (a b : Q) : (b <= a)%Q -> (a ?= b)%Q <> Lt.
Proof. intros H C. apply Qlt_alt in C. lra. Qed.

Lemma Qcompare_Gt (a b : Q) : (b < a)%Q -> (a ?= b)%Q = Gt.
Proof. intros H. apply Qgt_alt. exact H. Qed.

Lemma Qcompare_Eq (a b : Q) : (a == b)%Q -> (a ?= b)%Q = Eq.
Proof. intros H. apply Qeq_alt. exact H. Qed.

Lemma of_nat_pos (n : nat) : (0 < n)%nat -> (0 < inject_Z (Z.of_nat n))%Q.
Proof.
  intros Hn. change 0%Q with (inject_Z 0). rewrite <- Zlt_Qlt. lia.
Qed.

Lemma zero_nonneg x : F.zero x -> F.nonneg x.
Proof. destruct x; fsimpl; try tauto. intros ->. apply Qle_refl. Qed.

Lemma pos_nonneg x : F.pos x -> F.nonneg x.
Proof. destruct x; fsimpl; try tauto. apply Qlt_le_weak. Qed.

Lemma nonneg_fin x : F.nonneg x -> F.is_fin x.
Proof. destruct x; fsimpl; tauto. Qed.

Lemma add_nonneg x y : F.nonneg x -> F.nonneg y -> F.nonneg (F.add x y).
Proof.
  destruct x, y; fsimpl; try tauto. intros Ha Hb.
  lra.
Qed.

Lemma add_zero x y : F.zero x -> F.zero y -> F.zero (F.add x y).
Proof.
  destruct x, y; fsimpl; try tauto. intros Ha Hb.
  rewrite Ha, Hb. reflexivity.
Qed.

Lemma sum_nonneg l : Forall F.nonneg l -> F.nonneg (F.sum l).
Proof.
  induction 1 as [|x l Hx _ IH]; fsimpl.
  - apply Qle_refl.
  - apply add_nonneg; assumption.
Qed.

Lemma sum_zero l : Forall F.zero l -> F.zero (F.sum l).
Proof.
  induction 1 as [|x l Hx _ IH]; fsimpl.
  - reflexivity.
  - apply add_zero; assumption.
Qed.

Section DivCount.
Variable n : nat.
Hypothesis Hn : (0 < n)%nat.

Lemma div_count_nonneg x : F.nonneg x -> F.nonneg (F.div x (F.of_nat n)).
Proof.
  destruct x; fsimpl; try tauto. intros Hq.
  pose proof (of_nat_pos n Hn) as Hp.
  rewrite Qeq_bool_false by lra. fsimpl.
  apply Qle_shift_div_l; [assumption | lra].
Qed.

Lemma div_count_zero x : F.zero x -> F.zero (F.div x (F.of_nat n)).
Proof.
  destruct x; fsimpl; try tauto. intros Hq.
  pose proof (of_nat_pos n Hn) as Hp.
  rewrite Qeq_bool_false by lra. fsimpl.
  unfold Qdiv. rewrite Hq. ring.
Qed.

End DivCount.


Lemma div_zero_zero a b : F.zero a -> F.zero b -> F.div a b = NaN.
Proof.
  destruct a as [| | |a], b as [| | |b]; fsimpl; try tauto. intros Ha Hb.
  rewrite Qeq_bool_true by assumption.
  apply Qeq_alt in Ha. rewrite Ha. reflexivity.
Qed.

(** The ratio of two averages is undefined, +inf, or non-negative. *)
Lemma div_averages a b :
  F.nan_or_nonneg a -> F.nan_or_nonneg b ->
  F.div a b = NaN \/ F.div a b = PInf \/ F.nonneg (F.div a b).
Proof.
  intros [-> | Ha] [-> | Hb]; try (left; reflexivity).
  - left. destruct a; reflexivity.
  - destruct a as [| | |a], b as [| | |b]; fsimpl; try tauto.
    destruct (Qeq_bool b 0) eqn:E.
    + destruct (a ?= 0)%Q eqn:C; fsimpl; auto.
      apply Qlt_alt in C. lra.
    + right; right. fsimpl.
      assert (~ (b == 0)%Q) as Hne.
      { intros Hz. apply Qeq_bool_iff in Hz. congruence. }
      apply Qle_shift_div_l; lra.
Qed.

Lemma rsi_of_rs_nan : rsi_of_rs NaN = NaN.
Proof. reflexivity. Qed.


Lemma rsi_of_rs_range r :
  r = NaN \/ r = PInf \/ F.nonneg r ->
  rsi_of_rs r = NaN \/ F.in_range 0 100 (rsi_of_rs r).
Proof.
  intros [-> | [-> | Hr]]; [left; reflexivity | right | right].
  - unfold rsi_of_rs. fsimpl. lra.
  - destruct r as [| | |r]; fsimpl; try tauto.
    unfold rsi_of_rs. fsimpl.
    rewrite Qeq_bool_false by lra. fsimpl.
    assert (0 < 100 / (1 + r))%Q as Hlo
      by (apply Qlt_shift_div_l; lra).
    assert (100 / (1 + r) <= 100)%Q as Hhi
      by (apply Qle_shift_div_r; lra).
    lra.
Qed.

End FFacts.

(** ** Series operations *)

Module SeriesFacts.
Import FFacts.

Lemma length_diff s : length (Series.diff s) = length s.
Proof.
  destruct s as [|x t]; [reflexivity|]. cbn [Series.diff length].
  rewrite length_zip_with. cbn [length]. lia.
Qed.

Lemma length_rolling_mean s w : length (Series.rolling_mean s w) = length s.
Proof. unfold Series.rolling_mean. rewrite length_fmap, length_seq. reflexivity. Qed.

Lemma lookup_rolling_mean s w i :
  i < length s ->
  Series.rolling_mean s w !! i
  = Some (Series.calc_mean w (Series.notna (Series.window_at s w i))).
Proof.
  intros Hi. unfold Series.rolling_mean.
  rewrite list_lookup_fmap, lookup_seq_lt by assumption. reflexivity.
Qed.

Lemma notna_fin l : Forall F.is_fin l -> Series.notna l = l.
Proof.
  unfold Series.notna. induction 1 as [|x l Hx _ IH]; [reflexivity|].
  rewrite filter_cons_True, IH; [reflexivity|]. destruct x; simpl in *; tauto.
Qed.

Lemma length_window_at s w i :
  i < length s -> length (Series.window_at s w i) = Nat.min w (S i).
Proof.
  intros Hi. unfold Series.window_at. rewrite length_drop, length_take. lia.
Qed.

Lemma Forall_window_at (P : float64 -> Prop) s w i :
  Forall P s -> Forall P (Series.window_at s w i).
Proof. intros Hs. apply Forall_drop, Forall_take, Hs. Qed.

Lemma calc_mean_short w obs : length obs < w -> Series.calc_mean w obs = NaN.
Proof.
  intros Hlt. unfold Series.calc_mean.
  replace (w <=? length obs)%nat with false; [reflexivity|].
  symmetry. apply Nat.leb_gt. assumption.
Qed.

Lemma calc_mean_full w obs :
  w <= length obs -> 0 < length obs ->
  Series.calc_mean w obs = F.div (F.sum obs) (F.of_nat (length obs)).
Proof.
  intros Hw Hn. unfold Series.calc_mean.
  replace (w <=? length obs)%nat with true by (symmetry; apply Nat.leb_le; lia).
  replace (0 <? length obs)%nat with true by (symmetry; apply Nat.ltb_lt; lia).
  reflexivity.
Qed.

Lemma calc_mean_nonneg w obs :
  Forall F.nonneg obs -> F.nan_or_nonneg (Series.calc_mean w obs).
Proof.
  intros Hobs. unfold Series.calc_mean.
  destruct ((w <=? length obs)%nat && (0 <? length obs)%nat) eqn:E;
    [right | left; reflexivity].
  apply andb_prop in E as [_ Hn%Nat.ltb_lt].
  apply div_count_nonneg; [assumption | apply sum_nonneg, Hobs].
Qed.

Section RollingMean.
Variables (s : list float64) (w i : nat).
Hypothesis Hi : i < length s.

(** Fewer than [w] entries seen: undefined. *)
Lemma rolling_mean_short : S i < w -> Series.rolling_mean s w !! i = Some NaN.
Proof.
  intros Hw. rewrite lookup_rolling_mean by assumption. f_equal.
  apply calc_mean_short.
  pose proof (length_filter (fun x => F.isnan x = false)
                (Series.window_at s w i)) as Hf.
  rewrite length_window_at in Hf by assumption.
  unfold Series.notna. lia.
Qed.

Lemma rolling_mean_nonneg x :
  Forall F.nonneg s -> Series.rolling_mean s w !! i = Some x ->
  F.nan_or_nonneg x.
Proof.
  intros Hs. rewrite lookup_rolling_mean by assumption. intros [= <-].
  apply calc_mean_nonneg.
  rewrite notna_fin.
  - apply Forall_window_at, Hs.
  - apply Forall_window_at. eapply Forall_impl; [exact Hs|]. apply nonneg_fin.
Qed.

Hypothesis Hw : 0 < w.
Hypothesis Hfull : w <= S i.

Lemma rolling_mean_full :
  Forall F.is_fin s ->
  Series.rolling_mean s w !! i
  = Some (F.div (F.sum (Series.window_at s w i)) (F.of_nat w)).
Proof.
  intros Hs. rewrite lookup_rolling_mean by assumption. f_equal.
  rewrite notna_fin by (apply Forall_window_at, Hs).
  rewrite calc_mean_full; rewrite length_window_at by assumption; try lia.
  replace (Nat.min w (S i)) with w by lia. reflexivity.
Qed.

(** A full window of zeros has mean zero. *)
Lemma rolling_mean_full_zero :
  Forall F.zero s ->
  exists y, Series.rolling_mean s w !! i = Some y /\ F.zero y.
Proof.
  intros Hs. eexists. split.
  - apply rolling_mean_full. eapply Forall_impl; [exact Hs|].
    intros x Hx. apply nonneg_fin, zero_nonneg, Hx.
  - apply div_count_zero; [assumption|].
    apply sum_zero, Forall_window_at, Hs.
Qed.

End RollingMean.

End SeriesFacts.

(** ** The series inside [calculate_rsi] *)

Module RsiFacts.
Import FFacts SeriesFacts.

Section Data.
Variable data : list Q.

Lemma length_delta : length (delta data) = length data.
Proof. unfold delta. rewrite length_diff, length_fmap. reflexivity. Qed.

Lemma gain_fmap : gain data = gain_of <$> delta data.
Proof.
  unfold gain, Series.where_, Series.gt0.
  rewrite zip_with_fmap_r, zip_with_diag. reflexivity.
Qed.

Lemma loss_fmap : loss data = loss_of <$> delta data.
Proof.
  unfold loss, Series.neg, Series.where_, Series.lt0.
  rewrite zip_with_fmap_r, zip_with_diag, <- list_fmap_compose. reflexivity.
Qed.

Lemma length_gain : length (gain data) = length data.
Proof. rewrite gain_fmap, length_fmap. apply length_delta. Qed.

Lemma length_loss : length (loss data) = length data.
Proof. rewrite loss_fmap, length_fmap. apply length_delta. Qed.

Lemma length_calculate_rsi w : length (calculate_rsi data w) = length data.
Proof.
  unfold calculate_rsi, rs, Series.div, avg_gain, avg_loss.
  rewrite length_fmap, length_zip_with, !length_rolling_mean,
    length_gain, length_loss. lia.
Qed.

(** The first difference is undefined at position 0 ... *)
Lemma delta_lookup_0 : data <> [] -> delta data !! 0 = Some NaN.
Proof. destruct data; [congruence | reflexivity]. Qed.

(** ... and [p[i+1] - p[i]] at position [i+1]. *)
Lemma delta_lookup_S i a b :
  data !! i = Some a -> data !! S i = Some b ->
  delta data !! S i = Some (Fin (b - a)).
Proof.
  unfold delta. destruct data as [|p t]; [intros [=]|].
  intros Ha Hb. cbn [fmap list_fmap Series.diff].
  change ((NaN :: zip_with F.sub (Fin <$> t) (Fin p :: (Fin <$> t))) !! S i)
    with (zip_with F.sub (Fin <$> t) (Fin <$> p :: t) !! i).
  rewrite lookup_zip_with, !list_lookup_fmap.
  change (t !! i) with ((p :: t) !! S i). rewrite Ha, Hb. reflexivity.
Qed.

Lemma delta_lookup_S_inv i d :
  delta data !! S i = Some d ->
  exists a b, data !! i = Some a /\ data !! S i = Some b /\ d = Fin (b - a).
Proof.
  intros Hd.
  assert (S i < length data) as Hlt
    by (rewrite <- length_delta; eapply lookup_lt_Some, Hd).
  destruct (lookup_lt_is_Some_2 data i) as [a Ha]; [lia|].
  destruct (lookup_lt_is_Some_2 data (S i)) as [b Hb]; [lia|].
  exists a, b. repeat split; try assumption.
  rewrite (delta_lookup_S _ _ _ Ha Hb) in Hd. congruence.
Qed.

Lemma delta_nan_or_fin i d :
  delta data !! i = Some d -> d = NaN \/ F.is_fin d.
Proof.
  destruct i as [|i].
  - unfold delta. destruct data; [intros [=]|]. intros [= <-]. left. reflexivity.
  - intros (a & b & _ & _ & ->)%delta_lookup_S_inv. right. exact I.
Qed.

Lemma gain_of_nonneg d : d = NaN \/ F.is_fin d -> F.nonneg (gain_of d).
Proof.
  intros [-> | Hd]; [cbn; lra|]. destruct d as [| | |q]; try contradiction.
  unfold gain_of, F.gtb, F.ltb.
  destruct (0 ?= q)%Q eqn:C; fsimpl; try lra.
  apply Qlt_alt in C. lra.
Qed.

Lemma loss_of_nonneg d : d = NaN \/ F.is_fin d -> F.nonneg (loss_of d).
Proof.
  intros [-> | Hd]; [cbn; lra|]. destruct d as [| | |q]; try contradiction.
  unfold loss_of, F.ltb.
  destruct (q ?= 0)%Q eqn:C; fsimpl; try lra.
  apply Qlt_alt in C. lra.
Qed.

Lemma gain_nonneg : Forall F.nonneg (gain data).
Proof.
  rewrite gain_fmap. apply Forall_fmap, Forall_lookup. intros i d Hd.
  apply gain_of_nonneg. eapply delta_nan_or_fin, Hd.
Qed.

Lemma loss_nonneg : Forall F.nonneg (loss data).
Proof.
  rewrite loss_fmap. apply Forall_fmap, Forall_lookup. intros i d Hd.
  apply loss_of_nonneg. eapply delta_nan_or_fin, Hd.
Qed.

Lemma lookup_calculate_rsi w i g l :
  avg_gain data w !! i = Some g -> avg_loss data w !! i = Some l ->
  calculate_rsi data w !! i = Some (rsi_of_rs (F.div g l)).
Proof.
  intros Hg Hl. unfold calculate_rsi, rs, Series.div.
  rewrite list_lookup_fmap, lookup_zip_with, Hg, Hl. reflexivity.
Qed.

Lemma lookup_calculate_rsi_inv w i v :
  calculate_rsi data w !! i = Some v ->
  exists g l, avg_gain data w !! i = Some g /\ avg_loss data w !! i = Some l
              /\ v = rsi_of_rs (F.div g l).
Proof.
  unfold calculate_rsi, rs, Series.div.
  rewrite list_lookup_fmap, lookup_zip_with.
  destruct (avg_gain data w !! i) as [g|]; [|intros [=]].
  destruct (avg_loss data w !! i) as [l|]; [|intros [=]].
  intros [= <-]. exists g, l. auto.
Qed.
End Data.

End RsiFacts.

(** ** The RSI calculator *)

Module Rsi.
Import FFacts SeriesFacts RsiFacts.

(** The two rolling averages are undefined or non-negative. *)
Lemma avg_gain_nonneg data w i g :
  avg_gain data w !! i = Some g -> F.nan_or_nonneg g.
Proof.
  intros Hg. pose proof (lookup_lt_Some _ _ _ Hg) as Hi.
  unfold avg_gain in *. rewrite length_rolling_mean in Hi.
  eapply rolling_mean_nonneg; eauto using gain_nonneg.
Qed.

(** Entries of [gain] and [loss] at a position that has a predecessor. *)
Lemma gain_loss_lookup_S data i a b :
  data !! i = Some a -> data !! S i = Some b ->
  gain data !! S i = Some (gain_of (Fin (b - a)))
  /\ loss data !! S i = Some (loss_of (Fin (b - a))).
Proof.
  intros Ha Hb. rewrite gain_fmap, loss_fmap, !list_lookup_fmap.
  rewrite (delta_lookup_S _ _ _ _ Ha Hb). split; reflexivity.
Qed.

Lemma gain_of_up (q : Q) : (0 < q)%Q -> gain_of (Fin q) = Fin q.
Proof.
  intros Hq. unfold gain_of, F.gtb, F.ltb.
  rewrite Qcompare_Lt by assumption. reflexivity.
Qed.

Lemma gain_of_not_up (q : Q) : (q <= 0)%Q -> gain_of (Fin q) = Fin 0.
Proof.
  intros Hq%Qcompare_not_Lt. unfold gain_of, F.gtb, F.ltb.
  destruct (0 ?= q)%Q; first [reflexivity | congruence].
Qed.

Lemma loss_of_down (q : Q) : (q < 0)%Q -> loss_of (Fin q) = Fin (- q).
Proof.
  intros Hq. unfold loss_of, F.ltb.
  rewrite Qcompare_Lt by assumption. reflexivity.
Qed.

Lemma loss_of_not_down (q : Q) : (0 <= q)%Q -> loss_of (Fin q) = Fin (- 0).
Proof.
  intros Hq%Qcompare_not_Lt. unfold loss_of, F.ltb.
  destruct (q ?= 0)%Q; first [reflexivity | congruence].
Qed.

(** Every entry of a series satisfies [P] when the entry at 0 does and
    the entries at positions with a predecessor do. *)
Lemma Forall_over_delta (P : float64 -> Prop) (f : float64 -> float64) data :
  P (f NaN) ->
  (forall i a b, data !! i = Some a -> data !! S i = Some b ->
                 P (f (Fin (b - a)))) ->
  Forall P (f <$> delta data).
Proof.
  intros H0 HS. apply Forall_fmap, Forall_lookup. intros [|i] d Hd.
  - unfold delta in Hd. destruct data; [discriminate|].
    injection Hd as <-. exact H0.
  - apply delta_lookup_S_inv in Hd as (a & b & Ha & Hb & ->).
    cbn [compose]. eauto.
Qed.


Lemma flat_gain_zero data : flat data -> Forall F.zero (gain data).
Proof.
  intros Hflat. rewrite gain_fmap. apply Forall_over_delta.
  - reflexivity.
  - intros i a b Ha Hb. pose proof (Hflat _ _ _ Ha Hb).
    rewrite gain_of_not_up by lra. reflexivity.
Qed.

Lemma flat_loss_zero data : flat data -> Forall F.zero (loss data).
Proof.
  intros Hflat. rewrite loss_fmap. apply Forall_over_delta.
  - reflexivity.
  - intros i a b Ha Hb. pose proof (Hflat _ _ _ Ha Hb).
    rewrite loss_of_not_down by lra. reflexivity.
Qed.

End Rsi.

(** ** Statements about [calculate_rsi] *)

Module RsiSpec.
Import FFacts SeriesFacts RsiFacts Rsi.

(** C1: for the prices [10, 12, 11, 13, 14] and a window of 3 the deltas
    are [_, 2, -1, 2, 1]; at index 3 the average gain is 4/3, the average
    loss is 1/3, rs is 4 and the RSI is 80. *)
Theorem rsi_worked_example :
  delta prices_example = [NaN; Fin 2; Fin (-1); Fin 2; Fin 1]
  /\ exists g l r v,
      avg_gain prices_example 3 !! 3 = Some (Fin g) /\ (g == 4 # 3)%Q
      /\ avg_loss prices_example 3 !! 3 = Some (Fin l) /\ (l == 1 # 3)%Q
      /\ rs prices_example 3 !! 3 = Some (Fin r) /\ (r == 4)%Q
      /\ calculate_rsi prices_example 3 !! 3 = Some (Fin v) /\ (v == 80)%Q.
Proof.
  split; [reflexivity|].
  eexists _, _, _, _.
  repeat split; try (vm_compute; reflexivity).
Qed.

(** C2, as the program has it: with a window of [w], the entries at
    indices 0 to [w-2] are undefined, the rolling averages having no full
    window before index [w-1].  The undefined [delta[0]] does not
    propagate: [gain] and [loss] are 0 at index 0. *)
Theorem rsi_leading_entries_undefined data w i :
  i < length data ->
  (S i < w -> calculate_rsi data w !! i = Some NaN)
  /\ (delta data !! 0 = Some NaN
      /\ gain data !! 0 = Some (Fin 0) /\ loss data !! 0 = Some (Fin 0)).
Proof.
  intros Hi. split.
  - intros Hw.
    rewrite (lookup_calculate_rsi data w i NaN NaN).
    + reflexivity.
    + unfold avg_gain. apply rolling_mean_short; [|assumption].
      rewrite length_gain. assumption.
    + unfold avg_loss. apply rolling_mean_short; [|assumption].
      rewrite length_loss. assumption.
  - destruct data; [cbn in Hi; lia|]. repeat split; reflexivity.
Qed.

Lemma rsi_leading_entries_undefined_witness :
  (1 < length prices_example)
  /\ calculate_rsi prices_example 3 !! 1 = Some NaN.
Proof.
  split; [cbn; lia|].
  apply (rsi_leading_entries_undefined prices_example 3 1); cbn; lia.
Defined.

(** C2 as stated fails: with a window of 3 the entry at index 2, one of
    the first three, is a number (200/3), because [gain] and [loss] are 0
    and not undefined at index 0. *)
Lemma rsi_defined_at_window_minus_one :
  exists q, calculate_rsi prices_example 3 !! 2 = Some (Fin q)
            /\ (q == 200 # 3)%Q
            /\ (2 < 3)%nat
            /\ gain prices_example !! 0 = Some (Fin 0)
            /\ loss prices_example !! 0 = Some (Fin 0).
Proof.
  eexists. repeat split; vm_compute; reflexivity.
Qed.

Lemma div_not_negative g l :
  not_negative g -> not_negative l ->
  F.div g l = NaN \/ F.div g l = PInf \/ F.nonneg (F.div g l).
Proof.
  destruct g as [| | |a], l as [| | |b]; cbn [not_negative];
    try contradiction; intros Hg Hl; try (left; reflexivity).
  - right; left. cbn [F.div F.sign].
    destruct (b ?= 0)%Q eqn:C; try reflexivity.
    apply Qlt_alt in C. lra.
  - right; right. cbn. lra.
  - apply div_averages; right; assumption.
Qed.

(** C3, as the program has it: the last two lines of [calculate_rsi] turn
    averages that are not negative into an entry that is undefined or
    within [0, 100], whatever the two average series hold elsewhere.  (On
    doubles the running sum of the rolling mean can leave a negative
    average behind, and the entry is then outside the interval: see
    [rsi_out_of_range_after_spike].) *)
Theorem rsi_in_range data w :
  calculate_rsi data w
  = rsi_of_rs <$> Series.div (avg_gain data w) (avg_loss data w)
  /\ forall (averages_gain averages_loss : list float64) i g l v,
      averages_gain !! i = Some g -> averages_loss !! i = Some l ->
      not_negative g -> not_negative l ->
      (rsi_of_rs <$> Series.div averages_gain averages_loss) !! i = Some v ->
      v <> NaN -> F.in_range 0 100 v.
Proof.
  split; [reflexivity|].
  intros ag al i g l v Hg Hl Hgn Hln Hv Hdef.
  unfold Series.div in Hv.
  rewrite list_lookup_fmap, lookup_zip_with, Hg, Hl in Hv.
  injection Hv as <-.
  destruct (rsi_of_rs_range (F.div g l)) as [E | Hr];
    [apply div_not_negative; assumption | contradiction | exact Hr].
Qed.

Lemma rsi_in_range_witness :
  avg_gain prices_example 3 !! 3 = Some (Fin (4 # 3))
  /\ avg_loss prices_example 3 !! 3 = Some (Fin (1 # 3))
  /\ calculate_rsi prices_example 3 !! 3 = Some (Fin (1200 # 15))
  /\ F.in_range 0 100 (Fin (1200 # 15)).
Proof.
  split; [reflexivity|]. split; [reflexivity|]. split; [reflexivity|].
  apply (proj2 (rsi_in_range prices_example 3)
           (avg_gain prices_example 3) (avg_loss prices_example 3) 3
           (Fin (4 # 3)) (Fin (1 # 3)) (Fin (1200 # 15)));
    try reflexivity; try discriminate; cbn; lra.
Defined.

(** C3 as stated fails on doubles: after a gain of 1e17 and a loss of
    almost as much have left a window of 3, the running sum of the losses
    is negative, the average loss at index 7 is about -2.33 and the entry
    is about -600.  With the default window of 14 and a month of closes
    holding one such spike the last entry is 150. *)
Lemma rsi_out_of_range_after_spike :
  (exists l v,
      D.avg_loss prices_spike 3 !! 7 = Some l
      /\ PrimFloat.ltb l (-2)%float = true
      /\ D.calculate_rsi prices_spike 3 !! 7 = Some v
      /\ PrimFloat.ltb v (-599)%float = true)
  /\ last (D.calculate_rsi prices_month_spike 14) = Some 150%float.
Proof.
  split; [|vm_compute; reflexivity].
  eexists _, _. split; [vm_compute; reflexivity|].
  split; [vm_compute; reflexivity|].
  split; [vm_compute; reflexivity|]. vm_compute. reflexivity.
Qed.

(** C9: at every index [i >= 1], [gain[i]] and [loss[i]] are non-negative
    numbers, their difference is [delta[i]], and at most one of them is
    non-zero. *)
Theorem gain_loss_split data i :
  1 <= i -> i < length data ->
  exists d g l,
    delta data !! i = Some (Fin d)
    /\ gain data !! i = Some (Fin g) /\ loss data !! i = Some (Fin l)
    /\ (0 <= g)%Q /\ (0 <= l)%Q /\ (g - l == d)%Q
    /\ ((g == 0)%Q \/ (l == 0)%Q).
Proof.
  intros Hi Hlt. destruct i as [|i]; [lia|].
  destruct (lookup_lt_is_Some_2 data i) as [a Ha]; [lia|].
  destruct (lookup_lt_is_Some_2 data (S i)) as [b Hb]; [lia|].
  destruct (gain_loss_lookup_S _ _ _ _ Ha Hb) as [Hg Hl].
  exists (b - a)%Q. rewrite (delta_lookup_S _ _ _ _ Ha Hb), Hg, Hl.
  destruct (Qlt_le_dec 0 (b - a)) as [Hup | Hnup].
  - rewrite gain_of_up, loss_of_not_down by lra.
    eexists _, _. repeat split; try reflexivity; lra.
  - destruct (Qlt_le_dec (b - a) 0) as [Hdown | Hndown].
    + rewrite gain_of_not_up, loss_of_down by lra.
      eexists _, _. repeat split; try reflexivity; lra.
    + rewrite gain_of_not_up, loss_of_not_down by lra.
      eexists _, _. repeat split; try reflexivity; lra.
Qed.

Lemma gain_loss_split_witness :
  1 <= 2 /\ 2 < length prices_example /\
  exists d g l,
    delta prices_example !! 2 = Some (Fin d)
    /\ gain prices_example !! 2 = Some (Fin g)
    /\ loss prices_example !! 2 = Some (Fin l)
    /\ (0 <= g)%Q /\ (0 <= l)%Q /\ (g - l == d)%Q
    /\ ((g == 0)%Q \/ (l == 0)%Q).
Proof.
  split; [lia|]. split; [cbn; lia|].
  apply (gain_loss_split prices_example 2); cbn; lia.
Defined.




(** C5: where both rolling averages are defined and both are 0, the RSI
    is undefined (NaN, the value of 0/0; nothing is raised); this is the
    case for a constant price series at every index whose window is
    full. *)
Theorem rsi_undefined_without_movement data w i :
  (forall g l,
      avg_gain data w !! i = Some g -> avg_loss data w !! i = Some l ->
      F.zero g -> F.zero l ->
      calculate_rsi data w !! i = Some NaN)
  /\ (flat data -> 0 < w -> w <= S i -> i < length data ->
      exists g l,
        avg_gain data w !! i = Some g /\ F.zero g
        /\ avg_loss data w !! i = Some l /\ F.zero l
        /\ calculate_rsi data w !! i = Some NaN).
Proof.
  assert (forall g l,
      avg_gain data w !! i = Some g -> avg_loss data w !! i = Some l ->
      F.zero g -> F.zero l ->
      calculate_rsi data w !! i = Some NaN) as Hgen.
  { intros g l Hg Hl Hgz Hlz.
    rewrite (lookup_calculate_rsi _ _ _ _ _ Hg Hl).
    rewrite div_zero_zero by assumption. reflexivity. }
  split; [exact Hgen|].
  intros Hflat Hw Hfull Hlt.
  destruct (rolling_mean_full_zero (gain data) w i) as (g & Hg & Hgz);
    rewrite ?length_gain; auto using flat_gain_zero.
  destruct (rolling_mean_full_zero (loss data) w i) as (l & Hl & Hlz);
    rewrite ?length_loss; auto using flat_loss_zero.
  exists g, l. eauto 10.
Qed.

Lemma rsi_undefined_without_movement_witness :
  flat [7; 7; 7; 7]%Q
  /\ calculate_rsi [7; 7; 7; 7]%Q 2 !! 3 = Some NaN.
Proof.
  assert (flat [7; 7; 7; 7]%Q) as Hflat.
  { intros [|[|[|[|i]]]] a b Ha Hb; cbn in Ha, Hb; try discriminate;
      injection Ha as <-; injection Hb as <-; reflexivity. }
  split; [exact Hflat|].
  destruct (proj2 (rsi_undefined_without_movement [7; 7; 7; 7]%Q 2 3) Hflat)
    as (g & l & _ & _ & _ & _ & Hv); cbn; try lia.
  exact Hv.
Defined.

End RsiSpec.

(** ** The loop of [get_stock_data] *)

Module DriverFacts.

Lemma iloc_last {A} (l : list A) (x : A) : iloc (l ++ [x]) (-1) = Ok x.
Proof.
  unfold iloc. rewrite length_app. cbn [length Z.ltb Z.compare].
  replace (Z.of_nat (length l + 1) + -1)%Z with (Z.of_nat (length l)) by lia.
  destruct (Z.ltb_spec (Z.of_nat (length l)) 0) as [Hneg|_]; [lia|].
  rewrite Nat2Z.id, lookup_app_r by lia.
  rewrite Nat.sub_diag. reflexivity.
Qed.

Lemma iloc_second_last {A} (l : list A) (x y : A) :
  iloc (l ++ [x; y]) (-2) = Ok x.
Proof.
  unfold iloc. rewrite length_app. cbn [length Z.ltb Z.compare].
  replace (Z.of_nat (length l + 2) + -2)%Z with (Z.of_nat (length l)) by lia.
  destruct (Z.ltb_spec (Z.of_nat (length l)) 0) as [Hneg|_]; [lia|].
  rewrite Nat2Z.id, lookup_app_r by lia.
  rewrite Nat.sub_diag. reflexivity.
Qed.

Lemma iloc_second_last_short {A} (x : A) : iloc [x] (-2) = Raise IndexError.
Proof. reflexivity. Qed.

(** The last entry of a non-empty series is there to be read. *)
Lemma iloc_last_nonempty {A} (l : list A) :
  0 < length l -> exists x, iloc l (-1) = Ok x /\ last l = Some x.
Proof.
  intros Hl. destruct (last l) as [x|] eqn:E.
  - apply last_Some in E as [l' ->]. exists x. split; [apply iloc_last | reflexivity].
  - apply last_None in E as ->. cbn in Hl. lia.
Qed.

Lemma bind_Ok {A B} (m : result A) (f : A -> result B) (b : B) :
  m ≫= f = Ok b -> exists a, m = Ok a /\ f a = Ok b.
Proof. destruct m as [a|e]; [eauto | discriminate]. Qed.

Section Loop.
Variable history : string -> result (list Q).

Lemma step_spec st symbol :
  step history st symbol
  = (st.1 ++ records_of history symbol, st.2 ++ errors_of history symbol).
Proof.
  unfold step, records_of, errors_of. destruct st as [recs errs].
  destruct (fetch_record history symbol) as [[r|]|e]; cbn [fst snd];
    rewrite ?app_nil_r; reflexivity.
Qed.

Lemma foldl_step_spec symbols : forall st,
  foldl (step history) st symbols
  = (st.1 ++ (symbols ≫= records_of history),
     st.2 ++ (symbols ≫= errors_of history)).
Proof.
  induction symbols as [|symbol symbols IH]; intros st.
  - destruct st. cbn. rewrite !app_nil_r. reflexivity.
  - cbn [foldl]. rewrite IH, step_spec. cbn [fst snd mbind list_bind].
    rewrite <- !app_assoc. reflexivity.
Qed.

(** [stock_data] is the concatenation of what each symbol contributes,
    in the order of the symbols; so are the printed lines. *)
Lemma get_stock_data_bind symbols :
  get_stock_data history symbols = symbols ≫= records_of history.
Proof. unfold get_stock_data, run. rewrite foldl_step_spec. reflexivity. Qed.

Lemma printed_errors_bind symbols :
  printed_errors history symbols = symbols ≫= errors_of history.
Proof. unfold printed_errors, run. rewrite foldl_step_spec. reflexivity. Qed.

Lemma get_stock_data_split before symbol after :
  get_stock_data history (before ++ symbol :: after)
  = get_stock_data history before ++ records_of history symbol
      ++ get_stock_data history after.
Proof. rewrite !get_stock_data_bind, bind_app. reflexivity. Qed.

Lemma printed_errors_split before symbol after :
  printed_errors history (before ++ symbol :: after)
  = printed_errors history before ++ errors_of history symbol
      ++ printed_errors history after.
Proof. rewrite !printed_errors_bind, bind_app. reflexivity. Qed.

(** A record contributed by a symbol carries that symbol. *)
Lemma fetch_record_symbol symbol r :
  fetch_record history symbol = Ok (Some r) -> Symbol r = symbol.
Proof.
  unfold fetch_record. intros H.
  apply bind_Ok in H as (hist & _ & H).
  destruct hist as [|p hist]; [discriminate|].
  apply bind_Ok in H as (cmp & _ & H).
  apply bind_Ok in H as (prev & _ & H).
  apply bind_Ok in H as (rsi & _ & H).
  injection H as <-. reflexivity.
Qed.

Lemma records_of_symbol symbol r :
  r ∈ records_of history symbol -> Symbol r = symbol.
Proof.
  unfold records_of.
  destruct (fetch_record history symbol) as [[r'|]|e] eqn:E;
    try (intros []%elem_of_nil).
  intros ->%list_elem_of_singleton. apply fetch_record_symbol, E.
Qed.

(** The path that appends a record: a history of two closes or more.
    Nothing is raised on it, whatever the closes are. *)
Lemma fetch_record_two_or_more symbol h prev latest :
  history (symbol +:+ ".NS") = Ok (h ++ [prev; latest]) ->
  exists rsi,
    last (calculate_rsi (h ++ [prev; latest]) 14) = Some rsi
    /\ fetch_record history symbol
       = Ok (Some {| Symbol := symbol;
                     CMP := F.round2 (Fin latest);
                     Daily_Change :=
                       F.round2 (F.mul (F.div (F.sub (Fin latest) (Fin prev))
                                          (Fin prev)) (Fin 100));
                     RSI := F.round2 rsi |}).
Proof.
  intros Hh.
  destruct (iloc_last_nonempty (calculate_rsi (h ++ [prev; latest]) 14))
    as (rsi & Hrsi & Hlast).
  { rewrite RsiFacts.length_calculate_rsi, length_app. cbn. lia. }
  exists rsi. split; [exact Hlast|].
  unfold fetch_record. rewrite Hh. cbn [mbind result_bind].
  remember (h ++ [prev; latest]) as hist eqn:E.
  destruct hist as [|p t]; [destruct h; discriminate|].
  cbv beta iota. rewrite E in *. clear E p t.
  rewrite Hrsi, fmap_app. cbn [fmap list_fmap].
  rewrite iloc_second_last.
  rewrite (cons_middle (Fin prev)), app_assoc, iloc_last.
  reflexivity.
Qed.

Lemma records_of_at_most_one symbol : length (records_of history symbol) <= 1.
Proof.
  unfold records_of. destruct (fetch_record history symbol) as [[r|]|e];
    cbn; lia.
Qed.
End Loop.

End DriverFacts.

(** ** Statements about [get_stock_data] *)

Module DriverSpec.
Import FFacts DriverFacts.

(** C6, as the program has it: for a symbol whose history has exactly one
    close, reading the second-to-last close raises [IndexError]; the
    [except] branch catches it, prints a line, and the symbol gets no
    record; the remaining symbols are processed as usual. *)
Theorem single_close_symbol_is_skipped history before symbol after p :
  history (symbol +:+ ".NS") = Ok [p] ->
  fetch_record history symbol = Raise IndexError
  /\ get_stock_data history (before ++ symbol :: after)
     = get_stock_data history before ++ get_stock_data history after
  /\ printed_errors history (before ++ symbol :: after)
     = printed_errors history before
         ++ (symbol, IndexError) :: printed_errors history after.
Proof.
  intros Hh.
  assert (fetch_record history symbol = Raise IndexError) as Hf
    by (unfold fetch_record; rewrite Hh; reflexivity).
  split; [exact Hf|]. split.
  - rewrite get_stock_data_split. unfold records_of. rewrite Hf. reflexivity.
  - rewrite printed_errors_split. unfold errors_of. rewrite Hf. reflexivity.
Qed.

Lemma single_close_symbol_is_skipped_witness :
  sample_history ("ONE" +:+ ".NS") = Ok [5%Q]
  /\ get_stock_data sample_history (["PLAIN"] ++ "ONE" :: ["ZERO"])
     = get_stock_data sample_history ["PLAIN"]
         ++ get_stock_data sample_history ["ZERO"].
Proof.
  split; [reflexivity|].
  apply (single_close_symbol_is_skipped sample_history ["PLAIN"] "ONE"
           ["ZERO"] 5%Q).
  reflexivity.
Defined.

(** C6 as stated fails: a symbol with a single close gets no record at
    all (and one printed error), rather than a record with an undefined
    daily change. *)
Lemma single_close_symbol_has_no_record :
  sample_history "ONE.NS" = Ok [5%Q]
  /\ get_stock_data sample_history ["ONE"] = []
  /\ printed_errors sample_history ["ONE"] = [("ONE", IndexError)].
Proof. repeat split; reflexivity. Qed.

(** C7, as the program has it: for a symbol whose second-to-last close is
    0 nothing is raised and the record is appended; its daily change is
    the quotient by zero as numpy computes it, +inf for a positive latest
    close, -inf for a negative one, and undefined (NaN) only when the
    latest close is 0 as well; its RSI is the last entry of
    [calculate_rsi], rounded; the remaining symbols are processed as
    usual. *)
Theorem zero_previous_close history symbol h prev latest :
  history (symbol +:+ ".NS") = Ok (h ++ [prev; latest]) ->
  (prev == 0)%Q ->
  exists r rsi,
    fetch_record history symbol = Ok (Some r)
    /\ Symbol r = symbol
    /\ ((0 < latest)%Q -> Daily_Change r = PInf)
    /\ ((latest < 0)%Q -> Daily_Change r = NInf)
    /\ ((latest == 0)%Q -> Daily_Change r = NaN)
    /\ last (calculate_rsi (h ++ [prev; latest]) 14) = Some rsi
    /\ RSI r = F.round2 rsi
    /\ forall before after,
        get_stock_data history (before ++ symbol :: after)
        = get_stock_data history before
            ++ r :: get_stock_data history after.
Proof.
  intros Hh Hprev.
  destruct (fetch_record_two_or_more history symbol h prev latest Hh)
    as (rsi & Hlast & Hf).
  eexists _, rsi. split; [exact Hf|]. cbn [Symbol Daily_Change RSI].
  split; [reflexivity|].
  assert (forall c, (latest ?= 0)%Q = c ->
            F.round2 (F.mul (F.div (F.sub (Fin latest) (Fin prev)) (Fin prev))
                        (Fin 100)) = F.inf_of c) as Hdc.
  { intros c Hc. fsimpl. rewrite Qeq_bool_true by assumption.
    assert ((latest + - prev ?= 0)%Q = c) as ->.
    { rewrite <- Hc. apply Qcompare_comp; [rewrite Hprev; ring | reflexivity]. }
    destruct c; reflexivity. }
  split; [intros Hl; apply (Hdc Gt), Qcompare_Gt, Hl|].
  split; [intros Hl; apply (Hdc Lt), Qcompare_Lt, Hl|].
  split; [intros Hl; apply (Hdc Eq), Qcompare_Eq, Hl|].
  split; [exact Hlast|]. split; [reflexivity|].
  intros before after. rewrite get_stock_data_split.
  unfold records_of. rewrite Hf. reflexivity.
Qed.

Lemma zero_previous_close_witness :
  sample_history ("ZERO" +:+ ".NS")
  = Ok (take 13 prices_zero_prev ++ [0; 5]%Q)
  /\ exists r,
      fetch_record sample_history "ZERO" = Ok (Some r)
      /\ Daily_Change r = PInf.
Proof.
  split; [reflexivity|].
  destruct (zero_previous_close sample_history "ZERO"
              (take 13 prices_zero_prev) 0%Q 5%Q)
    as (r & rsi & Hf & _ & Hpos & _); [reflexivity | reflexivity |].
  exists r. split; [exact Hf | apply Hpos; reflexivity].
Defined.

(** C7 as stated fails: with a previous close of 0 and a latest close of
    5 the daily change of the record is +inf, which is not the undefined
    value; the RSI of that record and the record of the next symbol are
    populated. *)
Lemma zero_previous_close_gives_infinity :
  prices_zero_prev !! 13 = Some 0%Q
  /\ sample_history "ZERO.NS" = Ok prices_zero_prev
  /\ exists r1 r2,
      get_stock_data sample_history ["ZERO"; "PLAIN"] = [r1; r2]
      /\ Symbol r1 = "ZERO"
      /\ Daily_Change r1 = PInf
      /\ F.isnan (Daily_Change r1) = false
      /\ F.is_fin (RSI r1)
      /\ Symbol r2 = "PLAIN".
Proof.
  split; [reflexivity|]. split; [reflexivity|].
  eexists _, _. split; [vm_compute; reflexivity|].
  repeat split.
Qed.

(** C8: a symbol whose fetch raises, or whose history is empty, gets no
    record, and the loop goes on: the result is made of the records of the
    other symbols, in their order, and every other symbol on the list whose
    history has two closes or more has its record in it. *)
Theorem failed_symbol_is_skipped history before symbol after :
  (exists e, history (symbol +:+ ".NS") = Raise e)
  \/ history (symbol +:+ ".NS") = Ok [] ->
  records_of history symbol = []
  /\ (forall r,
        r ∈ get_stock_data history (before ++ symbol :: after) ->
        Symbol r <> symbol)
  /\ get_stock_data history (before ++ symbol :: after)
     = get_stock_data history before ++ get_stock_data history after
  /\ get_stock_data history (before ++ symbol :: after)
     = (before ++ after) ≫= records_of history
  /\ (forall s h prev latest,
        s ∈ before ++ after ->
        history (s +:+ ".NS") = Ok (h ++ [prev; latest]) ->
        exists r,
          fetch_record history s = Ok (Some r)
          /\ Symbol r = s
          /\ r ∈ get_stock_data history (before ++ symbol :: after)).
Proof.
  intros Hh.
  assert (records_of history symbol = []) as Hnone.
  { unfold records_of, fetch_record.
    destruct Hh as [[e ->] | ->]; reflexivity. }
  assert (get_stock_data history (before ++ symbol :: after)
          = (before ++ after) ≫= records_of history) as Hall.
  { rewrite get_stock_data_bind, !bind_app. cbn [mbind list_bind].
    rewrite Hnone. reflexivity. }
  split; [exact Hnone|]. split; [|split; [|split; [exact Hall|]]].
  - intros r Hr Hsym. rewrite Hall in Hr.
    apply list_elem_of_bind in Hr as (s & Hin & _).
    rewrite <- (records_of_symbol _ _ _ Hin), Hsym, Hnone in Hin.
    apply elem_of_nil in Hin. exact Hin.
  - rewrite get_stock_data_split, Hnone. reflexivity.
  - intros s h prev latest Hs Hhist.
    destruct (fetch_record_two_or_more _ _ _ _ _ Hhist) as (rsi & _ & Hf).
    eexists. split; [exact Hf|]. split; [reflexivity|].
    rewrite Hall. apply list_elem_of_bind. exists s. split; [|exact Hs].
    unfold records_of. rewrite Hf. apply list_elem_of_here.
Qed.

Lemma failed_symbol_is_skipped_witness :
  sample_history ("EMPTY" +:+ ".NS") = Ok []
  /\ sample_history ("NONE" +:+ ".NS") = Raise (ProviderError "no data")
  /\ (exists r1 r2,
        get_stock_data sample_history (["PLAIN"; "NONE"] ++ "EMPTY" :: ["ZERO"])
        = [r1; r2]
        /\ Symbol r1 = "PLAIN" /\ Symbol r2 = "ZERO")
  /\ get_stock_data sample_history (["PLAIN"; "NONE"] ++ "EMPTY" :: ["ZERO"])
     = get_stock_data sample_history ["PLAIN"; "NONE"]
         ++ get_stock_data sample_history ["ZERO"]
  /\ get_stock_data sample_history (["PLAIN"] ++ "NONE" :: ["ZERO"])
     = (["PLAIN"] ++ ["ZERO"]) ≫= records_of sample_history.
Proof.
  split; [reflexivity|]. split; [reflexivity|]. split; [|split].
  - eexists _, _. split; [vm_compute; reflexivity|]. split; reflexivity.
  - apply (failed_symbol_is_skipped sample_history ["PLAIN"; "NONE"] "EMPTY"
             ["ZERO"]).
    right. reflexivity.
  - apply (failed_symbol_is_skipped sample_history ["PLAIN"] "NONE" ["ZERO"]).
    left. eexists. reflexivity.
Defined.

(** C10: the symbols of the returned records form a subsequence of the
    input list: the records come in the order of their symbols, every
    record's symbol is an input symbol, and there are no more records than
    input symbols (each position of the input gives at most one). *)
Theorem records_follow_symbols history symbols :
  Symbol <$> get_stock_data history symbols `sublist_of` symbols
  /\ length (get_stock_data history symbols) <= length symbols
  /\ (forall r, r ∈ get_stock_data history symbols -> Symbol r ∈ symbols)
  /\ (forall symbol, length (records_of history symbol) <= 1).
Proof.
  assert (Symbol <$> get_stock_data history symbols `sublist_of` symbols)
    as Hsub.
  { rewrite get_stock_data_bind.
    induction symbols as [|symbol symbols IH]; [constructor|].
    cbn [mbind list_bind]. rewrite fmap_app.
    pose proof (records_of_symbol history symbol) as Hsym.
    pose proof (records_of_at_most_one history symbol) as Hone.
    destruct (records_of history symbol) as [|r [|r' rs]].
    - apply sublist_cons, IH.
    - cbn [fmap list_fmap app]. rewrite (Hsym r) by apply list_elem_of_here.
      apply sublist_skip, IH.
    - cbn in Hone. lia. }
  split; [exact Hsub|]. split; [|split].
  - apply sublist_length in Hsub. rewrite length_fmap in Hsub. exact Hsub.
  - intros r Hr. apply (sublist_subseteq _ _ Hsub).
    apply list_elem_of_fmap. eauto.
  - apply records_of_at_most_one.
Qed.

End DriverSpec.

(** ** More on [calculate_rsi] *)

Module RsiMore.
Import FFacts SeriesFacts RsiFacts Rsi.

(** X1: the output is aligned with the prices: same length, whatever the
    window, and so empty for an empty series. *)
Theorem rsi_aligned_with_prices data w :
  length (calculate_rsi data w) = length data
  /\ (forall i, is_Some (calculate_rsi data w !! i) <-> is_Some (data !! i))
  /\ (data = [] -> calculate_rsi data w = []).
Proof.
  pose proof (length_calculate_rsi data w) as Hlen.
  split; [exact Hlen|]. split.
  - intros i. rewrite !lookup_lt_is_Some, Hlen. reflexivity.
  - intros ->. reflexivity.
Qed.

Lemma calculate_rsi_short data w :
  length data < w -> calculate_rsi data w = replicate (length data) NaN.
Proof.
  intros Hshort. apply list_eq. intros i.
  destruct (decide (i < length data)) as [Hi | Hi].
  - rewrite lookup_replicate_2 by assumption.
    rewrite (lookup_calculate_rsi data w i NaN NaN); [reflexivity| |].
    + unfold avg_gain. apply rolling_mean_short; rewrite ?length_gain; lia.
    + unfold avg_loss. apply rolling_mean_short; rewrite ?length_loss; lia.
  - rewrite (lookup_ge_None_2 (calculate_rsi data w))
      by (rewrite length_calculate_rsi; lia).
    symmetry. apply lookup_replicate_None. lia.
Qed.

(** X2: a series shorter than the window gives an output that is undefined
    everywhere. *)
Theorem rsi_all_undefined_when_short data w :
  length data < w -> calculate_rsi data w = replicate (length data) NaN.
Proof. apply calculate_rsi_short. Qed.

Lemma rsi_all_undefined_when_short_witness :
  length prices_example < 6
  /\ calculate_rsi prices_example 6 = replicate (length prices_example) NaN.
Proof.
  split; [cbn; lia|].
  apply (rsi_all_undefined_when_short prices_example 6). cbn. lia.
Defined.

(** With a positive average loss the formula is a plain fraction. *)
Lemma rsi_of_ratio (g l : Q) :
  (0 <= g)%Q -> (0 < l)%Q ->
  exists v, rsi_of_rs (F.div (Fin g) (Fin l)) = Fin v
            /\ (v == 100 * g / (g + l))%Q.
Proof.
  intros Hg Hl. fsimpl. rewrite Qeq_bool_false by lra.
  assert (0 <= g / l)%Q as Hr by (apply Qle_shift_div_l; lra).
  unfold rsi_of_rs. fsimpl. rewrite Qeq_bool_false by lra. fsimpl.
  eexists. split; [reflexivity|]. field. split; lra.
Qed.

Lemma fraction_above (g l t : Q) :
  (0 <= g)%Q -> (0 < l)%Q ->
  (t < 100 * g / (g + l) <-> t * l < (100 - t) * g)%Q.
Proof.
  intros Hg Hl.
  assert (0 < g + l)%Q as Hs by lra.
  rewrite <- (Qmult_lt_r _ _ (g + l) Hs).
  assert (100 * g / (g + l) * (g + l) == 100 * g)%Q as -> by (field; lra).
  split; intros; lra.
Qed.

Lemma fraction_below (g l t : Q) :
  (0 <= g)%Q -> (0 < l)%Q ->
  (100 * g / (g + l) < t <-> (100 - t) * g < t * l)%Q.
Proof.
  intros Hg Hl.
  assert (0 < g + l)%Q as Hs by lra.
  rewrite <- (Qmult_lt_r _ _ (g + l) Hs).
  assert (100 * g / (g + l) * (g + l) == 100 * g)%Q as -> by (field; lra).
  split; intros; lra.
Qed.

Lemma lookup_rsi_positive_loss data w i g l :
  avg_gain data w !! i = Some (Fin g) ->
  avg_loss data w !! i = Some (Fin l) ->
  (0 < l)%Q ->
  exists v, calculate_rsi data w !! i = Some (Fin v)
            /\ (v == 100 * g / (g + l))%Q.
Proof.
  intros Hg Hl Hpos.
  destruct (avg_gain_nonneg _ _ _ _ Hg) as [|Hgn]; [discriminate|].
  destruct (rsi_of_ratio g l Hgn Hpos) as (v & Hv & Heq).
  exists v. split; [|exact Heq].
  rewrite (lookup_calculate_rsi _ _ _ _ _ Hg Hl), Hv. reflexivity.
Qed.

(** X3: where the average loss is positive, the RSI is
    [100 * avg_gain / (avg_gain + avg_loss)]. *)
Theorem rsi_closed_form data w i g l :
  avg_gain data w !! i = Some (Fin g) ->
  avg_loss data w !! i = Some (Fin l) ->
  (0 < l)%Q ->
  exists v, calculate_rsi data w !! i = Some (Fin v)
            /\ (v == 100 * g / (g + l))%Q.
Proof. apply lookup_rsi_positive_loss. Qed.

Lemma rsi_closed_form_witness :
  avg_gain prices_example 3 !! 3 = Some (Fin (4 # 3))
  /\ avg_loss prices_example 3 !! 3 = Some (Fin (1 # 3))
  /\ exists v, calculate_rsi prices_example 3 !! 3 = Some (Fin v)
               /\ (v == 100 * (4 # 3) / ((4 # 3) + (1 # 3)))%Q.
Proof.
  split; [reflexivity|]. split; [reflexivity|].
  apply (rsi_closed_form prices_example 3 3 (4 # 3) (1 # 3));
    reflexivity.
Defined.

(** X4: the thresholds of the report, read on the averages: with a positive
    average loss the RSI is above 70 exactly when the average gain exceeds
    7/3 of the average loss, below 30 exactly when it is less than 3/7 of
    it, and 50 exactly when the two averages are equal. *)
Theorem rsi_thresholds data w i g l v :
  avg_gain data w !! i = Some (Fin g) ->
  avg_loss data w !! i = Some (Fin l) ->
  (0 < l)%Q ->
  calculate_rsi data w !! i = Some (Fin v) ->
  ((70 < v)%Q <-> (7 * l < 3 * g)%Q)
  /\ ((v < 30)%Q <-> (7 * g < 3 * l)%Q)
  /\ ((v == 50)%Q <-> (g == l)%Q).
Proof.
  intros Hg Hl Hpos Hv.
  destruct (avg_gain_nonneg _ _ _ _ Hg) as [|Hgn]; [discriminate|].
  destruct (lookup_rsi_positive_loss _ _ _ _ _ Hg Hl Hpos) as (v' & Hv' & Heq).
  rewrite Hv in Hv'. injection Hv' as <-. fsimpl.
  pose proof (fraction_above g l 70 Hgn Hpos) as H70.
  pose proof (fraction_below g l 30 Hgn Hpos) as H30.
  pose proof (fraction_above g l 50 Hgn Hpos) as H50a.
  pose proof (fraction_below g l 50 Hgn Hpos) as H50b.
  rewrite <- Heq in H70, H30, H50a, H50b.
  split; [|split].
  - rewrite H70. split; intros; lra.
  - rewrite H30. split; intros; lra.
  - split; intros He.
    + destruct (Qlt_le_dec g l) as [Hlt|Hge].
      * assert (v < 50)%Q by (apply H50b; lra). lra.
      * destruct (Qlt_le_dec l g) as [Hgt|Hle]; [|lra].
        assert (50 < v)%Q by (apply H50a; lra). lra.
    + destruct (Qlt_le_dec v 50) as [Hlt|Hge].
      * apply H50b in Hlt. lra.
      * destruct (Qlt_le_dec 50 v) as [Hgt|Hle]; [|lra].
        apply H50a in Hgt. lra.
Qed.

Lemma rsi_thresholds_witness :
  avg_gain prices_example 3 !! 3 = Some (Fin (4 # 3))
  /\ avg_loss prices_example 3 !! 3 = Some (Fin (1 # 3))
  /\ calculate_rsi prices_example 3 !! 3 = Some (Fin (1200 # 15))
  /\ ((70 < 1200 # 15)%Q <-> (7 * (1 # 3) < 3 * (4 # 3))%Q)
  /\ ((1200 # 15 < 30)%Q <-> (7 * (4 # 3) < 3 * (1 # 3))%Q)
  /\ ((1200 # 15 == 50)%Q <-> (4 # 3 == 1 # 3)%Q).
Proof.
  split; [reflexivity|]. split; [reflexivity|]. split; [reflexivity|].
  apply (rsi_thresholds prices_example 3 3 (4 # 3) (1 # 3) (1200 # 15));
    reflexivity.
Defined.

Lemma decreasing_gain_zero data :
  strictly_decreasing data -> Forall F.zero (gain data).
Proof.
  intros Hdec. rewrite gain_fmap. apply Forall_over_delta.
  - reflexivity.
  - intros i a b Ha Hb. pose proof (Hdec _ _ _ Ha Hb).
    rewrite gain_of_not_up by lra. reflexivity.
Qed.

(** X5: where the average gain is 0 and the average loss is positive the RSI
    is 0.  For strictly decreasing prices the average gain is 0 at every
    index [i >= 1] whose window is full, so the RSI is 0 there whenever the
    average loss is positive. *)
Theorem rsi_is_0_without_gains data w i :
  (forall g l,
      avg_gain data w !! i = Some g -> avg_loss data w !! i = Some l ->
      F.zero g -> F.pos l ->
      exists v, calculate_rsi data w !! i = Some v /\ F.same v (Fin 0))
  /\ (strictly_decreasing data ->
      0 < w -> w <= S i -> 1 <= i -> i < length data ->
      exists g,
        avg_gain data w !! i = Some g /\ F.zero g
        /\ forall l,
            avg_loss data w !! i = Some l -> F.pos l ->
            exists v, calculate_rsi data w !! i = Some v
                      /\ F.same v (Fin 0)).
Proof.
  assert (forall g l,
      avg_gain data w !! i = Some g -> avg_loss data w !! i = Some l ->
      F.zero g -> F.pos l ->
      exists v, calculate_rsi data w !! i = Some v /\ F.same v (Fin 0))
    as Hgen.
  { intros [| | |g] [| | |l] Hg Hl Hgz Hlp; fsimpl; try contradiction.
    destruct (lookup_rsi_positive_loss _ _ _ _ _ Hg Hl Hlp) as (v & Hv & Heq).
    exists (Fin v). split; [exact Hv|]. fsimpl.
    rewrite Heq, Hgz. field. lra. }
  split; [exact Hgen|].
  intros Hdec Hw Hfull Hi Hlt.
  destruct (rolling_mean_full_zero (gain data) w i) as (g & Hg & Hgzero);
    rewrite ?length_gain; auto using decreasing_gain_zero.
  exists g. split; [exact Hg|]. split; [exact Hgzero|].
  intros l Hl Hlpos. exact (Hgen g l Hg Hl Hgzero Hlpos).
Qed.

Lemma rsi_is_0_without_gains_witness :
  strictly_decreasing [4; 3; 2; 1]%Q
  /\ avg_loss [4; 3; 2; 1]%Q 2 !! 2 = Some (Fin (2 # 2))
  /\ exists v, calculate_rsi [4; 3; 2; 1]%Q 2 !! 2 = Some v
               /\ F.same v (Fin 0).
Proof.
  assert (strictly_decreasing [4; 3; 2; 1]%Q) as Hdec.
  { intros [|[|[|[|i]]]] a b Ha Hb; cbn in Ha, Hb; try discriminate;
      injection Ha as <-; injection Hb as <-; reflexivity. }
  split; [exact Hdec|]. split; [reflexivity|].
  destruct (proj2 (rsi_is_0_without_gains [4; 3; 2; 1]%Q 2 2) Hdec)
    as (g & _ & _ & Hv); cbn; try lia.
  apply (Hv (Fin (2 # 2))); reflexivity.
Defined.

End RsiMore.

(** ** More on [get_stock_data] *)

Module DriverMore.
Import FFacts DriverFacts.

Lemma two_or_more_split {A} (l : list A) :
  2 <= length l -> exists h a b, l = h ++ [a; b].
Proof.
  intros Hl.
  destruct (last l) as [b|] eqn:Eb;
    [|apply last_None in Eb as ->; cbn in Hl; lia].
  apply last_Some in Eb as [l' ->].
  rewrite length_app in Hl. cbn in Hl.
  destruct (last l') as [a|] eqn:Ea;
    [|apply last_None in Ea as ->; cbn in Hl; lia].
  apply last_Some in Ea as [h ->].
  exists h, a, b. rewrite <- app_assoc. reflexivity.
Qed.

Section Loop.
Variable history : string -> result (list Q).

(** What the body of the [try] does, by the shape of the history. *)
Lemma fetch_record_raise symbol e :
  history (symbol +:+ ".NS") = Raise e -> fetch_record history symbol = Raise e.
Proof. intros Hh. unfold fetch_record. rewrite Hh. reflexivity. Qed.

Lemma fetch_record_empty symbol :
  history (symbol +:+ ".NS") = Ok [] -> fetch_record history symbol = Ok None.
Proof. intros Hh. unfold fetch_record. rewrite Hh. reflexivity. Qed.

Lemma fetch_record_single symbol p :
  history (symbol +:+ ".NS") = Ok [p] ->
  fetch_record history symbol = Raise IndexError.
Proof. intros Hh. unfold fetch_record. rewrite Hh. reflexivity. Qed.

Lemma fetch_record_Some_inv symbol r :
  fetch_record history symbol = Ok (Some r) ->
  exists h prev latest rsi,
    history (symbol +:+ ".NS") = Ok (h ++ [prev; latest])
    /\ last (calculate_rsi (h ++ [prev; latest]) 14) = Some rsi
    /\ r = {| Symbol := symbol;
              CMP := F.round2 (Fin latest);
              Daily_Change :=
                F.round2 (F.mul (F.div (F.sub (Fin latest) (Fin prev))
                                   (Fin prev)) (Fin 100));
              RSI := F.round2 rsi |}.
Proof.
  intros Hf.
  destruct (history (symbol +:+ ".NS")) as [hist|e] eqn:Hh;
    [|rewrite (fetch_record_raise _ _ Hh) in Hf; discriminate].
  destruct hist as [|p [|p' t]].
  - rewrite (fetch_record_empty _ Hh) in Hf. discriminate.
  - rewrite (fetch_record_single _ _ Hh) in Hf. discriminate.
  - destruct (two_or_more_split (p :: p' :: t)) as (h & prev & latest & E);
      [cbn; lia|].
    rewrite E in Hh.
    destruct (fetch_record_two_or_more _ _ _ _ _ Hh) as (rsi & Hlast & Hf').
    rewrite Hf' in Hf. injection Hf as <-.
    exists h, prev, latest, rsi. rewrite E. auto.
Qed.

Lemma records_of_elem symbol r :
  r ∈ records_of history symbol <-> fetch_record history symbol = Ok (Some r).
Proof.
  unfold records_of.
  destruct (fetch_record history symbol) as [[r'|]|e].
  - rewrite list_elem_of_singleton. split; [intros ->; reflexivity|].
    intros [= ->]. reflexivity.
  - rewrite elem_of_nil. split; [tauto | discriminate].
  - rewrite elem_of_nil. split; [tauto | discriminate].
Qed.

Lemma get_stock_data_elem symbols r :
  r ∈ get_stock_data history symbols <->
  Symbol r ∈ symbols /\ fetch_record history (Symbol r) = Ok (Some r).
Proof.
  rewrite get_stock_data_bind, list_elem_of_bind. split.
  - intros (symbol & Hr & Hin). apply records_of_elem in Hr.
    rewrite (fetch_record_symbol _ _ _ Hr). auto.
  - intros [Hin Hf]. exists (Symbol r). split; [|exact Hin].
    apply records_of_elem, Hf.
Qed.

End Loop.

(** X8: a symbol gets a record exactly when its history has at least two
    closes; the record is then the only one for that position of the list. *)
Theorem record_iff_two_closes history symbol :
  (exists r, records_of history symbol = [r])
  <-> (exists hist, history (symbol +:+ ".NS") = Ok hist /\ 2 <= length hist).
Proof.
  split.
  - intros [r Hr].
    assert (fetch_record history symbol = Ok (Some r)) as Hf.
    { apply records_of_elem. rewrite Hr. apply list_elem_of_here. }
    apply fetch_record_Some_inv in Hf as (h & prev & latest & _ & Hh & _).
    eexists. split; [exact Hh|]. rewrite length_app. cbn. lia.
  - intros (hist & Hh & Hlen).
    destruct (two_or_more_split hist Hlen) as (h & prev & latest & ->).
    destruct (fetch_record_two_or_more _ _ _ _ _ Hh) as (rsi & _ & Hf).
    eexists. unfold records_of. rewrite Hf. reflexivity.
Qed.

(** X9: every printed error names an input symbol and has one of two causes:
    the provider raised it, or the history has a single close and the
    error is the index error of reading the second-to-last one. *)
Theorem printed_error_cause history symbols symbol e :
  (symbol, e) ∈ printed_errors history symbols ->
  symbol ∈ symbols
  /\ (history (symbol +:+ ".NS") = Raise e
      \/ (e = IndexError /\ exists p, history (symbol +:+ ".NS") = Ok [p])).
Proof.
  rewrite printed_errors_bind, list_elem_of_bind.
  intros (symbol' & Hin & Hsym). unfold errors_of in Hin.
  destruct (fetch_record history symbol') as [[r|]|e'] eqn:Hf;
    try (apply elem_of_nil in Hin; contradiction).
  apply list_elem_of_singleton in Hin. injection Hin as -> ->.
  split; [exact Hsym|].
  destruct (history (symbol' +:+ ".NS")) as [hist|e''] eqn:Hh.
  - right. destruct hist as [|p [|p' t]].
    + rewrite (fetch_record_empty _ _ Hh) in Hf. discriminate.
    + rewrite (fetch_record_single _ _ _ Hh) in Hf.
      injection Hf as <-. eauto.
    + destruct (two_or_more_split (p :: p' :: t)) as (h & prev & latest & E);
        [cbn; lia|].
      rewrite E in Hh.
      destruct (fetch_record_two_or_more _ _ _ _ _ Hh) as (rsi & _ & Hf').
      rewrite Hf' in Hf. discriminate.
  - left. rewrite (fetch_record_raise _ _ _ Hh) in Hf. congruence.
Qed.

Lemma printed_error_cause_witness :
  ("ONE", IndexError) ∈ printed_errors sample_history ["PLAIN"; "ONE"]
  /\ "ONE" ∈ ["PLAIN"; "ONE"]
  /\ (sample_history ("ONE" +:+ ".NS") = Raise IndexError
      \/ (IndexError = IndexError
          /\ exists p, sample_history ("ONE" +:+ ".NS") = Ok [p])).
Proof.
  assert (("ONE", IndexError) ∈ printed_errors sample_history ["PLAIN"; "ONE"])
    as Hin by (vm_compute; apply list_elem_of_here).
  split; [exact Hin|].
  exact (printed_error_cause sample_history ["PLAIN"; "ONE"] "ONE" IndexError
           Hin).
Defined.

(** X10: every symbol is accounted for at most once: it gives a record, or a
    printed error, or neither (an empty history), never both; the printed
    errors follow the order of the symbols. *)
Theorem symbols_accounted_once history symbols :
  (forall symbol,
      records_of history symbol = [] \/ errors_of history symbol = [])
  /\ length (get_stock_data history symbols)
     + length (printed_errors history symbols) <= length symbols
  /\ (printed_errors history symbols).*1 `sublist_of` symbols.
Proof.
  assert (forall symbol,
      length (records_of history symbol) + length (errors_of history symbol)
      <= 1) as Hone.
  { intros symbol. unfold records_of, errors_of.
    destruct (fetch_record history symbol) as [[r|]|e]; cbn; lia. }
  split; [|split].
  - intros symbol. specialize (Hone symbol).
    destruct (records_of history symbol); [left; reflexivity|].
    destruct (errors_of history symbol); [right; reflexivity|].
    cbn in Hone. lia.
  - rewrite get_stock_data_bind, printed_errors_bind.
    induction symbols as [|symbol symbols IH]; [cbn; lia|].
    cbn [mbind list_bind]. rewrite !length_app. cbn [length].
    specialize (Hone symbol). lia.
  - rewrite printed_errors_bind.
    induction symbols as [|symbol symbols IH]; [constructor|].
    cbn [mbind list_bind]. rewrite fmap_app. unfold errors_of at 1.
    destruct (fetch_record history symbol) as [[r|]|e]; cbn [fmap list_fmap app].
    + apply sublist_cons, IH.
    + apply sublist_cons, IH.
    + apply sublist_skip, IH.
Qed.

(** X11: with fewer than 14 closes (the window of the RSI) a symbol still gets
    its record, with an undefined RSI. *)
Theorem rsi_undefined_with_few_closes history symbol hist :
  history (symbol +:+ ".NS") = Ok hist ->
  2 <= length hist -> length hist < 14 ->
  exists r, records_of history symbol = [r] /\ RSI r = NaN.
Proof.
  intros Hh Hlo Hhi.
  destruct (two_or_more_split hist Hlo) as (h & prev & latest & ->).
  destruct (fetch_record_two_or_more _ _ _ _ _ Hh) as (rsi & Hlast & Hf).
  eexists. unfold records_of. rewrite Hf. split; [reflexivity|].
  cbn [RSI]. rewrite RsiMore.calculate_rsi_short in Hlast by assumption.
  apply last_Some_elem_of, elem_of_replicate in Hlast as [-> _].
  reflexivity.
Qed.

Lemma rsi_undefined_with_few_closes_witness :
  short_history ("ANY" +:+ ".NS") = Ok prices_example
  /\ exists r, records_of short_history "ANY" = [r] /\ RSI r = NaN.
Proof.
  split; [reflexivity|].
  apply (rsi_undefined_with_few_closes short_history "ANY" prices_example);
    [reflexivity | cbn; lia | cbn; lia].
Defined.

End DriverMore.

(** ** The report of [main] *)

Module MainSpec.
Import FFacts DriverFacts DriverMore.

Lemma key_le_total x y : key_le x y = true \/ key_le y x = true.
Proof.
  destruct x as [| | |a], y as [| | |b]; cbn; auto.
  rewrite !Qle_bool_iff. destruct (Qlt_le_dec a b); [left | right]; lra.
Qed.

Lemma key_le_trans x y z :
  key_le x y = true -> key_le y z = true -> key_le x z = true.
Proof.
  destruct x as [| | |a], y as [| | |b], z as [| | |c]; cbn;
    try reflexivity; try discriminate.
  rewrite !Qle_bool_iff. intros. lra.
Qed.

Lemma key_le_nan y : key_le NaN y = true -> y = NaN.
Proof. destruct y; cbn; [reflexivity | discriminate..]. Qed.

#[local] Instance rsi_le_total : Total rsi_le.
Proof. intros r1 r2. apply key_le_total. Qed.

#[local] Instance rsi_le_trans : Transitive rsi_le.
Proof. intros r1 r2 r3. apply key_le_trans. Qed.

(** X14: the first table holds the fetched records, each once, in ascending
    order of RSI; the records with an undefined RSI come last. *)
Theorem sorted_table_spec df :
  sort_values df ≡ₚ df
  /\ StronglySorted rsi_le (sort_values df)
  /\ (forall l1 r1 l2 r2,
        sort_values df = l1 ++ r1 :: l2 -> r2 ∈ l2 ->
        RSI r1 = NaN -> RSI r2 = NaN).
Proof.
  assert (StronglySorted rsi_le (sort_values df)) as Hsorted.
  { unfold sort_values. apply StronglySorted_merge_sort; apply _. }
  split; [apply merge_sort_Permutation|]. split; [exact Hsorted|].
  intros l1 r1 l2 r2 E Hin Hnan. rewrite E in Hsorted.
  apply StronglySorted_app_1_r in Hsorted.
  apply StronglySorted_inv in Hsorted as [_ Hall].
  rewrite Forall_forall in Hall. specialize (Hall r2 Hin).
  unfold rsi_le in Hall. rewrite Hnan in Hall. apply key_le_nan, Hall.
Qed.

Lemma gtb_70 x :
  F.gtb x (Fin 70) = true -> x = PInf \/ exists v, x = Fin v /\ (70 < v)%Q.
Proof.
  destruct x as [| | |v]; cbn [F.gtb F.ltb]; try discriminate; auto.
  destruct (70 ?= v)%Q eqn:C; try discriminate.
  intros _. right. exists v. split; [reflexivity|]. apply Qlt_alt, C.
Qed.

Lemma ltb_30 x :
  F.ltb x (Fin 30) = true -> x = NInf \/ exists v, x = Fin v /\ (v < 30)%Q.
Proof.
  destruct x as [| | |v]; cbn [F.ltb]; try discriminate; auto.
  destruct (v ?= 30)%Q eqn:C; try discriminate.
  intros _. right. exists v. split; [reflexivity|]. apply Qlt_alt, C.
Qed.

(** X15: the two selections keep the order of the fetched records, have no
    record in common, and leave out the records with an undefined RSI. *)
Theorem selections_disjoint df :
  overbought df `sublist_of` df
  /\ oversold df `sublist_of` df
  /\ (forall r, r ∈ overbought df -> r ∉ oversold df)
  /\ (forall r, RSI r = NaN -> (r ∉ overbought df) /\ (r ∉ oversold df)).
Proof.
  unfold overbought, oversold.
  split; [apply sublist_filter|]. split; [apply sublist_filter|]. split.
  - intros r [Hhi%gtb_70 _]%list_elem_of_filter
             [Hlo%ltb_30 _]%list_elem_of_filter.
    destruct Hhi as [Hhi | (v & Hv & Hhi)], Hlo as [Hlo | (v' & Hv' & Hlo)];
      try congruence.
    rewrite Hv in Hv'. injection Hv' as <-. lra.
  - intros r Hnan. split.
    + intros [[Hp | (v & Hv & _)]%gtb_70 _]%list_elem_of_filter; congruence.
    + intros [[Hp | (v & Hv & _)]%ltb_30 _]%list_elem_of_filter; congruence.
Qed.

Lemma symbols_of_records_sublist history symbols :
  Symbol <$> get_stock_data history symbols `sublist_of` symbols.
Proof.
  rewrite get_stock_data_bind.
  induction symbols as [|symbol symbols IH]; [constructor|].
  cbn [mbind list_bind]. rewrite fmap_app.
  pose proof (records_of_symbol history symbol) as Hsym.
  pose proof (records_of_at_most_one history symbol) as Hone.
  destruct (records_of history symbol) as [|r [|r' rs]].
  - apply sublist_cons, IH.
  - cbn [fmap list_fmap app]. rewrite (Hsym r) by apply list_elem_of_here.
    apply sublist_skip, IH.
  - cbn in Hone. lia.
Qed.

Lemma fallback_symbols_NoDup : NoDup fallback_symbols.
Proof. apply (bool_decide_unpack _). vm_compute. reflexivity. Qed.

Lemma line_not_data_error text (errs : list (string * exn)) :
  Line text ∉ uncurry DataError <$> errs.
Proof. intros ([symbol e] & Heq & _)%list_elem_of_fmap. discriminate. Qed.

Lemma list_failure_not_in_report df :
  Line "Failed to fetch Nifty 50 stocks list." ∉ report df.
Proof.
  unfold report. destruct df as [|r df]; [|destruct (overbought (r :: df));
    destruct (oversold (r :: df))]; cbn [app];
    rewrite ?elem_of_cons, elem_of_nil; intuition discriminate.
Qed.

Lemma no_data_in_report df :
  Line "Failed to fetch stock data." ∈ report df <-> df = [].
Proof.
  unfold report. destruct df as [|r df]; [|destruct (overbought (r :: df));
    destruct (oversold (r :: df))]; cbn [app];
    rewrite ?elem_of_cons, elem_of_nil; intuition discriminate.
Qed.

Lemma get_stock_data_nil history symbols :
  get_stock_data history symbols = []
  <-> forall symbol hist,
      symbol ∈ symbols -> history (symbol +:+ ".NS") = Ok hist ->
      length hist < 2.
Proof.
  split.
  - intros Hnil symbol hist Hin Hh.
    destruct (decide (length hist < 2)) as [|Hge]; [assumption|].
    destruct (two_or_more_split hist) as (h & prev & latest & ->); [lia|].
    destruct (fetch_record_two_or_more _ _ _ _ _ Hh) as (rsi & _ & Hf).
    assert (records_of history symbol ⊆ get_stock_data history symbols) as Hsub.
    { rewrite get_stock_data_bind. intros r Hr.
      apply list_elem_of_bind. eauto. }
    unfold records_of in Hsub. rewrite Hf, Hnil in Hsub.
    specialize (Hsub _ (list_elem_of_here _ _)).
    apply elem_of_nil in Hsub. contradiction.
  - intros Hall.
    destruct (get_stock_data history symbols) as [|r rest] eqn:E;
      [reflexivity|].
    assert (r ∈ get_stock_data history symbols) as Hr
      by (rewrite E; apply list_elem_of_here).
    apply get_stock_data_elem in Hr as [Hin Hf].
    apply fetch_record_Some_inv in Hf as (h & prev & latest & _ & Hh & _).
    specialize (Hall _ _ Hin Hh). rewrite length_app in Hall.
    cbn in Hall. lia.
Qed.

(** X17: [main] reports that the list of symbols could not be fetched exactly
    when the download succeeds with an empty list: a failed download falls
    back to the built-in list and goes on. *)
Theorem main_reports_no_list_iff read_symbols history :
  Line "Failed to fetch Nifty 50 stocks list." ∈ main read_symbols history
  <-> read_symbols = Ok [].
Proof.
  unfold main, get_nifty50_stocks.
  destruct read_symbols as [[|symbol symbols]|e].
  - cbn [app]. rewrite !elem_of_cons. split; [reflexivity | auto].
  - cbn [app]. rewrite elem_of_cons, elem_of_app. split; [|discriminate].
    intros [Heq | [Herr | Hrep]]; [discriminate | |].
    + apply line_not_data_error in Herr. contradiction.
    + apply list_failure_not_in_report in Hrep. contradiction.
  - unfold fallback_symbols. cbn [app].
    rewrite !elem_of_cons, elem_of_app. split; [|discriminate].
    intros [Heq | [Heq | [Herr | Hrep]]]; [discriminate | discriminate | |].
    + apply line_not_data_error in Herr. contradiction.
    + apply list_failure_not_in_report in Hrep. contradiction.
Qed.

(** X18: [main] reports that no stock data could be fetched exactly when there
    are symbols and none of them has a history of two closes or more. *)
Theorem main_reports_no_data_iff read_symbols history :
  Line "Failed to fetch stock data." ∈ main read_symbols history
  <-> (get_nifty50_stocks read_symbols).1 <> []
      /\ forall symbol hist,
          symbol ∈ (get_nifty50_stocks read_symbols).1 ->
          history (symbol +:+ ".NS") = Ok hist -> length hist < 2.
Proof.
  rewrite <- get_stock_data_nil.
  unfold main. destruct (get_nifty50_stocks read_symbols) as [symbols failure].
  cbv beta iota. cbn [fst app].
  assert (Line "Failed to fetch stock data."
            ∉ match failure with Some e => [ListError e] | None => [] end)
    as Hfail.
  { destruct failure; rewrite ?elem_of_cons, elem_of_nil; intuition discriminate. }
  rewrite elem_of_cons, elem_of_app.
  destruct symbols as [|symbol symbols].
  - rewrite elem_of_cons, elem_of_nil.
    split; [intuition discriminate | intros [Hne _]; congruence].
  - rewrite elem_of_app, no_data_in_report. unfold get_stock_data. split.
    + intros [Heq | [Hin | [Herr | Hrep]]]; [discriminate | contradiction | |].
      * apply line_not_data_error in Herr. contradiction.
      * split; [discriminate | exact Hrep].
    + intros [_ Hnil]. auto.
Qed.

(** X19: when the download of the list fails, [main] prints the error and works
    on the built-in list: at most 50 records, no two of them for the same
    symbol. *)
Theorem fallback_run e history :
  ListError e ∈ main (Raise e) history
  /\ (get_nifty50_stocks (Raise e)).1 = fallback_symbols
  /\ length (get_stock_data history (get_nifty50_stocks (Raise e)).1) <= 50
  /\ NoDup (Symbol <$> get_stock_data history (get_nifty50_stocks (Raise e)).1).
Proof.
  split; [|split; [reflexivity|]].
  - unfold main, get_nifty50_stocks. cbv beta iota. cbn [app].
    rewrite !elem_of_cons. auto.
  - cbn [get_nifty50_stocks fst].
    pose proof (symbols_of_records_sublist history fallback_symbols) as Hsub.
    split.
    + apply sublist_length in Hsub. rewrite length_fmap in Hsub. exact Hsub.
    + eapply sublist_NoDup; [apply fallback_symbols_NoDup | exact Hsub].
Qed.

End MainSpec.
